(** * dbbase: statement generation and query construction

    A shallow embedding of [dbbase/models.py], [dbbase/query.py],
    [dbbase/core.py] and [dbbase/plugin_manager.py], with the properties of
    the generated SQL text, of the bound parameter sequences and of the
    order of effects (hooks, statements, commits). *)

From Stdlib Require Import String Ascii List ZArith Bool Lia DecimalString.
Import ListNotations.
Open Scope list_scope.
Open Scope string_scope.

Set Implicit Arguments.

(** ** Python values *)

(** The values that travel through the library: keyword values, bound
    parameters, column defaults. *)
Inductive value : Type :=
| VNone
| VBool (b : bool)
| VInt (n : Z)
| VStr (s : string).

(** [str(v)], which is what an f-string placeholder [{v}] formats. *)
Definition py_str (v : value) : string :=
  match v with
  | VNone => "None"
  | VBool true => "True"
  | VBool false => "False"
  | VInt n => NilZero.string_of_int (Z.to_int n)
  | VStr s => s
  end.

(** A keyword mapping [**kwargs] (a dict): its items in insertion order. *)
Definition kwargs := list (string * value).

Definition keys (kw : kwargs) : list string := map fst kw.
Definition values (kw : kwargs) : list value := map snd kw.

(** [sep.join(parts)] *)
Definition join (sep : string) (parts : list string) : string :=
  String.concat sep parts.

(** Why the interpreter raises a [TypeError] in the modelled code: a [+]
    between a [str] and a value of another type (the name of that type is
    kept), or a call that binds one parameter twice, by position and by a
    keyword of a [**] mapping (the callee and the parameter are kept). *)
Inductive type_error : Type :=
| ConcatNonStr (type_name : string)
| MultipleValues (callee argument : string).

(** Exceptions raised by the modelled code. [SqliteError] is an error of
    the engine that no handler of the library has wrapped. *)
Inductive exn : Type :=
| DatabaseConnectionError (msg : string)
| TypeError (why : type_error)
| AttributeError (msg : string)
| SqliteError (msg : string).

(** [type(v).__name__] *)
Definition type_name (v : value) : string :=
  match v with
  | VNone => "NoneType"
  | VBool _ => "bool"
  | VInt _ => "int"
  | VStr _ => "str"
  end.

(** Binding the keywords of [f(..., **kw)] where [bound] names the
    parameters that the positional arguments have filled: the first keyword
    that names one of them is refused. *)
Fixpoint first_collision (bound : list string) (kw : kwargs) : option string :=
  match kw with
  | [] => None
  | (k, _) :: rest =>
      if existsb (String.eqb k) bound then Some k
      else first_collision bound rest
  end.

Definition bind_keywords (callee : string) (bound : list string) (kw : kwargs)
  : exn + unit :=
  match first_collision bound kw with
  | Some k => inl (TypeError (MultipleValues callee k))
  | None => inr tt
  end.

Definition result (A : Type) : Type := (exn + A)%type.

(** ** models.py: Field *)

Record Field : Type := mkField {
  field_type : string;
  primary_key : bool;
  nullable : bool;
  unique : bool;
  default : value
}.

(** [default is not None] *)
Definition is_not_None (v : value) : bool :=
  match v with VNone => false | _ => true end.

(** [Field.get_definition]: the local [field_def] is extended statement by
    statement. *)
Definition get_definition (f : Field) : string :=
  let field_def := field_type f in
  let field_def :=
    if primary_key f then field_def ++ " PRIMARY KEY" else field_def in
  let field_def :=
    if unique f then
      if negb (primary_key f) then field_def ++ " UNIQUE" else field_def
    else field_def in
  let field_def :=
    if negb (nullable f) then field_def ++ " NOT NULL" else field_def in
  let field_def :=
    if is_not_None (default f)
    then field_def ++ " DEFAULT " ++ py_str (default f)
    else field_def in
  field_def.

Definition IntegerField (pk nl un : bool) (d : value) : Field :=
  mkField "INTEGER" pk nl un d.
Definition TextField (pk nl un : bool) (d : value) : Field :=
  mkField "TEXT" pk nl un d.
Definition DatetimeField (pk nl un : bool) (d : value) : Field :=
  mkField "DATETIME" pk nl un d.
Definition DateField (pk nl un : bool) (d : value) : Field :=
  mkField "DATE" pk nl un d.

(** The column definition as the specification words it: the storage type
    followed by the optional clauses that apply, in a fixed order. *)
Definition optional_clause (present : bool) (text : string) : string :=
  if present then text else "".

Definition definition_clauses (f : Field) : list string :=
  [ optional_clause (primary_key f) " PRIMARY KEY";
    optional_clause (unique f && negb (primary_key f)) " UNIQUE";
    optional_clause (negb (nullable f)) " NOT NULL";
    optional_clause (is_not_None (default f))
                    (" DEFAULT " ++ py_str (default f)) ].

Definition definition_spec (f : Field) : string :=
  field_type f ++ join "" (definition_clauses f).

(** ** query.py: QueryBuilder *)

Record QueryBuilder : Type := mkQB {
  table_name : string;
  filters : list (string * value);
  filter_likes : list (string * value);
  ordering : option string
}.

(** [QueryBuilder(table_name)] *)
Definition new_QueryBuilder (t : string) : QueryBuilder :=
  mkQB t [] [] None.

(** [add_filter] over the items of its keyword mapping. *)
Definition add_filter (kw : kwargs) (qb : QueryBuilder) : QueryBuilder :=
  fold_left
    (fun q kv => mkQB (table_name q) (filters q ++ [kv])%list (filter_likes q)
                      (ordering q))
    kw qb.

(** [add_filter_like] over the items of its keyword mapping *)
Definition add_filter_like (kw : kwargs) (qb : QueryBuilder) : QueryBuilder :=
  fold_left
    (fun q kv => mkQB (table_name q) (filters q) (filter_likes q ++ [kv])%list
                      (ordering q))
    kw qb.

(** [set_order(field_name, descending)] *)
Definition set_order (field_name : string) (descending : bool)
           (qb : QueryBuilder) : QueryBuilder :=
  let direction := if descending then "DESC" else "ASC" in
  mkQB (table_name qb) (filters qb) (filter_likes qb)
       (Some (field_name ++ " " ++ direction)).

(** Truth value of a list and of an optional string, as [if x:] tests it. *)
Definition truthy_list {A : Type} (l : list A) : bool :=
  match l with [] => false | _ => true end.

Definition truthy_ordering (o : option string) : bool :=
  match o with
  | None => false
  | Some s => negb (String.eqb s "")
  end.

(** The statement text that [build_select] assembles (lines 54 to 63). *)
Definition select_text (qb : QueryBuilder) : string :=
  let query := "SELECT * FROM " ++ table_name qb in
  let query :=
    if truthy_list (filters qb) then
      let filter_clauses :=
        join " AND " (map (fun kv => fst kv ++ " = ?") (filters qb)) in
      query ++ " WHERE " ++ filter_clauses
    else query in
  let query :=
    if truthy_list (filter_likes qb) then
      let filter_like_clauses :=
        join " AND " (map (fun kv => fst kv ++ " LIKE ?") (filter_likes qb)) in
      query ++ " WHERE " ++ filter_like_clauses
    else query in
  let query :=
    if truthy_ordering (ordering qb) then
      match ordering qb with
      | Some o => query ++ " ORDER BY " ++ o
      | None => query
      end
    else query in
  query.

(** ["%" + value + "%"]: string concatenation is defined on [str] only. *)
Definition wrap_like (v : value) : result value :=
  match v with
  | VStr s => inr (VStr ("%" ++ s ++ "%"))
  | other => inl (TypeError (ConcatNonStr (type_name other)))
  end.

(** [tuple("%" + value + "%" for _, value in filter_likes)] *)
Fixpoint wrap_likes (l : list (string * value)) : result (list value) :=
  match l with
  | [] => inr []
  | (_, v) :: rest =>
      match wrap_like v with
      | inl e => inl e
      | inr w =>
          match wrap_likes rest with
          | inl e => inl e
          | inr ws => inr (w :: ws)
          end
      end
  end.

(** [build_select]: the statement text and the parameter tuple. *)
Definition build_select (qb : QueryBuilder) : result (string * list value) :=
  let query := select_text qb in
  let value_tuple := values (filters qb) in
  match wrap_likes (filter_likes qb) with
  | inl e => inl e
  | inr likes => inr (query, (value_tuple ++ likes)%list)
  end.

(** Number of occurrences of a character in a text. *)
Fixpoint count_char (c : ascii) (s : string) : nat :=
  match s with
  | EmptyString => 0
  | String a rest =>
      (if Ascii.eqb a c then 1 else 0) + count_char c rest
  end.

Definition placeholders (s : string) : nat := count_char "?"%char s.

Definition is_str (v : value) : bool :=
  match v with VStr _ => true | _ => false end.

(** The LIKE values of a builder are all strings. *)
Definition likes_are_str (qb : QueryBuilder) : Prop :=
  Forall (fun kv => is_str (snd kv) = true) (filter_likes qb).

(** The wrapped LIKE values, where every LIKE value is a string. *)
Definition like_pattern (v : value) : value :=
  match v with
  | VStr s => VStr ("%" ++ s ++ "%")
  | other => other
  end.

(** The clauses of the statement text, one by one. *)
Definition where_clause (qb : QueryBuilder) : string :=
  if truthy_list (filters qb)
  then " WHERE " ++ join " AND " (map (fun kv => fst kv ++ " = ?") (filters qb))
  else "".

Definition where_like_clause (qb : QueryBuilder) : string :=
  if truthy_list (filter_likes qb)
  then " WHERE "
       ++ join " AND " (map (fun kv => fst kv ++ " LIKE ?") (filter_likes qb))
  else "".

Definition order_clause (qb : QueryBuilder) : string :=
  match ordering qb with
  | Some o => if String.eqb o "" then "" else " ORDER BY " ++ o
  | None => ""
  end.

(** The reading under which the LIKE filters leave no clause text: the
    statement is the one of the builder without its LIKE filters, and it
    has fewer placeholders than there are parameters. *)
Definition like_clause_dropped (qb : QueryBuilder) : Prop :=
  exists q ps,
    build_select qb = inr (q, ps)
    /\ q = select_text (mkQB (table_name qb) (filters qb) [] (ordering qb))
    /\ placeholders q < length ps.

(** No question mark in the names that enter the statement text. *)
Definition plain (s : string) : Prop := placeholders s = 0.

Definition plain_names (qb : QueryBuilder) : Prop :=
  plain (table_name qb)
  /\ Forall (fun kv => plain (fst kv)) (filters qb)
  /\ Forall (fun kv => plain (fst kv)) (filter_likes qb)
  /\ plain (order_clause qb).

(** A sequence of [set_order] calls, oldest first. *)
Definition apply_orders (calls : list (string * bool)) (qb : QueryBuilder)
  : QueryBuilder :=
  fold_left (fun q c => set_order (fst c) (snd c) q) calls qb.

(** The builder with its ordering removed. *)
Definition clear_order (qb : QueryBuilder) : QueryBuilder :=
  mkQB (table_name qb) (filters qb) (filter_likes qb) None.

(** ** The SQL engine (sqlite3), an external collaborator *)

(** A result row: field names with their values, in column order. *)
Definition row := list (string * value).

(** What the library asks of a connection. [sql_execute] answers with the
    rows of the cursor or with the engine's error message. *)
Class SqlEngine (conn : Type) : Type := {
  sql_connect : string -> string + conn;
  sql_execute : conn -> string -> list value -> (string + list row) * conn;
  sql_executescript : conn -> string -> option string * conn;
  sql_commit : conn -> conn;
  sql_rollback : conn -> conn;
  sql_close : conn -> option string
}.

(** ** plugin_manager.py and the observable effects *)

(** Positional arguments handed to a hook. *)
Inductive hook_arg : Type :=
| ADb
| ARow (r : option row)
| AMap (m : kwargs)
| AText (s : string)
| ATuple (ps : list value).

(** What the outside world sees, in order. *)
Inductive event : Type :=
| EHook (plugin : nat) (hook_name : string) (args : list hook_arg)
        (kw : kwargs)
| EExec (query : string) (params : list value)
| EScript (script : string)
| ECommit
| ERollback
| EClose.

(** A registered plugin: its identity and the names of its callable
    attributes. Hooks are observers: calling one is recorded and returns.
    One argument reaches a hook by reference, the [updates] dict of
    [Model.update]: [before_update_edits] is what the plugin's
    [before_update] leaves in that dict (the identity for a hook that only
    looks). *)
Record Plugin : Type := mkPlugin {
  plugin_id : nat;
  callable_hooks : list string;
  before_update_edits : kwargs -> kwargs
}.

Definition has_hook (p : Plugin) (hook_name : string) : bool :=
  existsb (String.eqb hook_name) (callable_hooks p).

(** The calls that one [call_hook] makes, in registration order. *)
Definition hook_calls (ps : list Plugin) (hook_name : string)
           (args : list hook_arg) (kw : kwargs) : list event :=
  map (fun p => EHook (plugin_id p) hook_name args kw)
      (filter (fun p => has_hook p hook_name) ps).

(** The calls of [call_hook("before_update", instance, updates, db)]: each
    listener is handed the dict itself, as the listeners before it left it.
    The result is the calls and the dict after the last of them. *)
Fixpoint before_update_calls (ps : list Plugin) (instance : option row)
         (updates : kwargs) : list event * kwargs :=
  match ps with
  | [] => ([], updates)
  | p :: rest =>
      if has_hook p "before_update" then
        let (calls, updates') :=
          before_update_calls rest instance (before_update_edits p updates) in
        (EHook (plugin_id p) "before_update"
               [ARow instance; AMap updates; ADb] [] :: calls,
         updates')
      else before_update_calls rest instance updates
  end.

Definition is_exec (e : event) : bool :=
  match e with
  | EExec _ _ => true
  | EScript _ => true
  | _ => false
  end.

(** The statements sent to the engine, in order. *)
Definition executed (t : list event) : list event := filter is_exec t.

Definition not_established : exn :=
  DatabaseConnectionError "Database connection is not established.".

Section Effects.

Context {conn : Type} {engine : SqlEngine conn}.

(** The mutable state: the [DBBase] object ([db_path], [connection]), the
    module-level [plugin_manager] and the trace of effects. *)
Record World : Type := mkWorld {
  db_path : string;
  connection : option conn;
  plugins : list Plugin;
  trace : list event
}.

Definition M (A : Type) : Type := World -> result A * World.

Definition ret {A : Type} (a : A) : M A := fun w => (inr a, w).

Definition raise {A : Type} (e : exn) : M A := fun w => (inl e, w).

Definition bind {A B : Type} (m : M A) (k : A -> M B) : M B :=
  fun w =>
    match m w with
    | (inl e, w') => (inl e, w')
    | (inr a, w') => k a w'
    end.

Definition lift {A : Type} (r : result A) : M A := fun w => (r, w).

Definition emit (evs : list event) : M unit :=
  fun w => (inr tt,
            mkWorld (db_path w) (connection w) (plugins w)
                    (trace w ++ evs)%list).

Definition set_connection (c : option conn) : M unit :=
  fun w => (inr tt, mkWorld (db_path w) c (plugins w) (trace w)).

Definition get_connection : M (option conn) :=
  fun w => (inr (connection w), w).

End Effects.

Arguments World conn : clear implicits.
Arguments M conn A : clear implicits.

Notation "x <- m ;; k" := (bind m (fun x => k))
  (at level 61, m at next level, right associativity).
Notation "m ;;; k" := (bind m (fun _ => k))
  (at level 61, right associativity).

Module PluginManager.
Section PluginManager.
Context {conn : Type} {engine : SqlEngine conn}.

(** [load_plugin] *)
Definition load_plugin (p : Plugin) : M conn unit :=
  fun w => (inr tt,
            mkWorld (db_path w) (connection w) (plugins w ++ [p])%list
                    (trace w)).

(** [call_hook(hook_name, *args, **kwargs)] *)
Definition call_hook (hook_name : string) (args : list hook_arg)
           (kw : kwargs) : M conn unit :=
  fun w => emit (hook_calls (plugins w) hook_name args kw) w.

(** A call [call_hook(hook_name, *args, **mapping)] that unpacks a mapping
    of the caller: [self] and [hook_name] are bound by position, so a key
    of the mapping with one of these names is refused before the body
    runs. *)
Definition call_hook_unpacking (hook_name : string) (args : list hook_arg)
           (mapping : kwargs) : M conn unit :=
  lift (bind_keywords "PluginManager.call_hook" ["self"; "hook_name"] mapping) ;;;
  call_hook hook_name args mapping.

(** [call_hook("before_update", instance, updates, db)]: the dict is the
    caller's, and comes back as the hooks left it. *)
Definition call_hook_before_update (instance : option row) (updates : kwargs)
  : M conn kwargs :=
  fun w =>
    let (calls, updates') :=
      before_update_calls (plugins w) instance updates in
    (inr updates',
     mkWorld (db_path w) (connection w) (plugins w) (trace w ++ calls)%list).

End PluginManager.
End PluginManager.

(** ** core.py: DBBase *)

Module DBBase.
Section DBBase.
Context {conn : Type} {engine : SqlEngine conn}.

(** A method called on [self.connection]. *)
Definition on_connection {A : Type} (method : string)
           (k : conn -> M conn A) : M conn A :=
  oc <- get_connection ;;
  match oc with
  | Some c => k c
  | None =>
      raise (AttributeError ("'NoneType' object has no attribute '"
                             ++ method ++ "'"))
  end.

(** [connect] *)
Definition connect : M conn unit :=
  fun w =>
    match sql_connect (db_path w) with
    | inr c => set_connection (Some c) w
    | inl msg =>
        raise (DatabaseConnectionError
                 ("Failed to connect to the database: " ++ msg)) w
    end.

(** [close]: the engine closes the connection, then the attribute is
    reset; an error of the engine is not handled and leaves the attribute
    as it is. *)
Definition close : M conn unit :=
  oc <- get_connection ;;
  match oc with
  | Some c =>
      emit [EClose] ;;;
      match sql_close c with
      | None => set_connection None
      | Some msg => raise (SqliteError msg)
      end
  | None => ret tt
  end.

Definition commit : M conn unit :=
  on_connection "commit"
    (fun c => set_connection (Some (sql_commit c)) ;;; emit [ECommit]).

Definition rollback : M conn unit :=
  on_connection "rollback"
    (fun c => set_connection (Some (sql_rollback c)) ;;; emit [ERollback]).

(** [transaction], a context manager around the body of a [with] block. *)
Definition transaction {A : Type} (body : M conn A) : M conn A :=
  fun w =>
    match connection w with
    | None => raise not_established w
    | Some _ =>
        match body w with
        | (inr a, w1) =>
            match commit w1 with
            | (inr _, w2) => (inr a, w2)
            | (inl e, w2) => (rollback ;;; raise e) w2
            end
        | (inl e, w1) => (rollback ;;; raise e) w1
        end
    end.

(** [execute(query, params)]: the cursor is the list of its rows. *)
Definition execute (query : string) (params : list value)
  : M conn (list row) :=
  oc <- get_connection ;;
  match oc with
  | None => raise not_established
  | Some _ =>
      PluginManager.call_hook "before_query" [AText query; ATuple params] [] ;;;
      on_connection "cursor" (fun c =>
        emit [EExec query params] ;;;
        match sql_execute c query params with
        | (inr rows, c') => set_connection (Some c') ;;; ret rows
        | (inl msg, c') =>
            set_connection (Some c') ;;;
            raise (DatabaseConnectionError
                     ("Failed to execute query: " ++ msg))
        end)
  end.

(** [cursor.fetchone()] *)
Definition fetchone (cursor : list row) : option row := hd_error cursor.

(** [fetch_one(query, params)] *)
Definition fetch_one (query : string) (params : list value)
  : M conn (option row) :=
  cursor <- execute query params ;;
  ret (fetchone cursor).

(** [fetch_all(query, params)] *)
Definition fetch_all (query : string) (params : list value)
  : M conn (list row) :=
  cursor <- execute query params ;;
  ret cursor.

(** [execute_script(script)] *)
Definition execute_script (script : string) : M conn unit :=
  oc <- get_connection ;;
  match oc with
  | None => raise not_established
  | Some c =>
      emit [EScript script] ;;;
      match sql_executescript c script with
      | (None, c') => set_connection (Some c')
      | (Some msg, c') =>
          set_connection (Some c') ;;;
          raise (DatabaseConnectionError
                   ("Failed to execute script: " ++ msg))
      end
  end.

End DBBase.
End DBBase.

(** ** models.py: Model *)

(** A record type: its [table_name] and the fields that [ModelMeta]
    collected into [_meta], in declaration order. *)
Record ModelClass : Type := mkModel {
  model_table : string;
  meta_fields : list (string * Field)
}.

Module Model.
Section Model.
Context {conn : Type} {engine : SqlEngine conn}.

Definition create_table_query (cls : ModelClass) : string :=
  let field_definitions :=
    map (fun nf => fst nf ++ " " ++ get_definition (snd nf))
        (meta_fields cls) in
  let field_definitions := join ", " field_definitions in
  "CREATE TABLE IF NOT EXISTS " ++ model_table cls
    ++ " (" ++ field_definitions ++ ")".

(** [create_table] *)
Definition create_table (cls : ModelClass) : M conn unit :=
  let query := create_table_query cls in
  DBBase.transaction (DBBase.execute query [] ;;; ret tt).

(** [drop_table] *)
Definition drop_table (cls : ModelClass) : M conn unit :=
  let query := "DROP TABLE IF EXISTS " ++ model_table cls in
  DBBase.transaction (DBBase.execute query [] ;;; ret tt).

Definition create_query (cls : ModelClass) (kw : kwargs) : string :=
  let fields := join ", " (keys kw) in
  let placeholders := join ", " (map (fun _ => "?") kw) in
  "INSERT INTO " ++ model_table cls ++ " (" ++ fields ++ ") VALUES ("
    ++ placeholders ++ ")".

(** [create]. Its keywords never hold [cls] or [db], which Python refuses
    at the call of [create] itself; they are unpacked into both calls of
    [call_hook]. *)
Definition create (cls : ModelClass) (kw : kwargs) : M conn unit :=
  PluginManager.call_hook_unpacking "before_save" [ADb] kw ;;;
  let values := values kw in
  let query := create_query cls kw in
  DBBase.transaction (DBBase.execute query values ;;; ret tt) ;;;
  PluginManager.call_hook_unpacking "after_save" [ADb] kw.

(** [all] *)
Definition all (cls : ModelClass) : M conn (list row) :=
  let query := "SELECT * FROM " ++ model_table cls in
  DBBase.fetch_all query [].

Definition get_query (cls : ModelClass) (kw : kwargs) : string :=
  let conditions := join " AND " (map (fun key => key ++ " = ?") (keys kw)) in
  "SELECT * FROM " ++ model_table cls ++ " WHERE " ++ conditions
    ++ " LIMIT 1".

(** [get]. Its keywords never hold [cls] or [db], which Python refuses at
    the call. *)
Definition get (cls : ModelClass) (kw : kwargs) : M conn (option row) :=
  let values := values kw in
  let query := get_query cls kw in
  DBBase.fetch_one query values.

(** A call [cls.get(db, **mapping)] that unpacks a dict of the caller:
    [cls] and [db] are bound by position. *)
Definition get_unpacking (cls : ModelClass) (mapping : kwargs)
  : M conn (option row) :=
  lift (bind_keywords "Model.get" ["cls"; "db"] mapping) ;;;
  get cls mapping.

Definition update_query (cls : ModelClass) (where_ updates : kwargs)
  : string :=
  let set_clause :=
    join ", " (map (fun key => key ++ " = ?") (keys updates)) in
  let where_clause :=
    join " AND " (map (fun key => key ++ " = ?") (keys where_)) in
  "UPDATE " ++ model_table cls ++ " SET " ++ set_clause ++ " WHERE "
    ++ where_clause.

(** [update]. [where] and [updates] are dicts of the caller: [where] is
    unpacked into the two calls of [get], and [updates] is handed to the
    [before_update] hooks before the statement is built from it. *)
Definition update (cls : ModelClass) (where_ updates : kwargs)
  : M conn unit :=
  instance_before <- get_unpacking cls where_ ;;
  updates <- PluginManager.call_hook_before_update instance_before updates ;;
  let values := (values updates ++ values where_)%list in
  let query := update_query cls where_ updates in
  DBBase.transaction (DBBase.execute query values ;;; ret tt) ;;;
  instance_after <- get_unpacking cls where_ ;;
  PluginManager.call_hook "after_update"
    [ARow instance_before; ARow instance_after; ADb] [].

Definition delete_query (cls : ModelClass) (kw : kwargs) : string :=
  let conditions := join " AND " (map (fun key => key ++ " = ?") (keys kw)) in
  "DELETE FROM " ++ model_table cls ++ " WHERE " ++ conditions.

(** [delete]. Its keywords never hold [cls] or [db] (Python refuses them at
    the call of [delete] itself), so that unpacking them into [get] binds
    nothing twice. *)
Definition delete (cls : ModelClass) (kw : kwargs) : M conn unit :=
  instance <- get cls kw ;;
  PluginManager.call_hook "before_delete" [ARow instance; ADb] [] ;;;
  let values := values kw in
  let query := delete_query cls kw in
  DBBase.transaction (DBBase.execute query values ;;; ret tt) ;;;
  PluginManager.call_hook "after_delete" [ARow instance; ADb] [].

End Model.
End Model.

(** ** query.py: QuerySet *)

Record QuerySet : Type := mkQS {
  qs_model : ModelClass;
  query_builder : QueryBuilder
}.

Module QuerySet.
Section QuerySet.
Context {conn : Type} {engine : SqlEngine conn}.

(** [QueryableModel.objects(db)], that is [QuerySet(cls, db)]. *)
Definition objects (cls : ModelClass) : QuerySet :=
  mkQS cls (new_QueryBuilder (model_table cls)).

(** [filter]: mutates the owned builder and returns [self]. *)
Definition filter (kw : kwargs) (self : QuerySet) : QuerySet :=
  mkQS (qs_model self) (add_filter kw (query_builder self)).

(** [filter_like] *)
Definition filter_like (kw : kwargs) (self : QuerySet) : QuerySet :=
  mkQS (qs_model self) (add_filter_like kw (query_builder self)).

(** [order_by] *)
Definition order_by (field_name : string) (descending : bool)
           (self : QuerySet) : QuerySet :=
  mkQS (qs_model self) (set_order field_name descending (query_builder self)).

(** [all] reads the builder and leaves it as it is. *)
Definition all (self : QuerySet) : M conn (list row) :=
  qp <- lift (build_select (query_builder self)) ;;
  DBBase.fetch_all (fst qp) (snd qp).

(** [get]: the object after the call, and the effects of the call. The
    filter is appended before anything can fail. *)
Definition get (kw : kwargs) (self : QuerySet)
  : QuerySet * M conn (option row) :=
  let self := filter kw self in
  (self,
   qp <- lift (build_select (query_builder self)) ;;
   DBBase.fetch_one (fst qp) (snd qp)).

End QuerySet.
End QuerySet.

(** ** A small engine to run the model on *)

(** One table held in memory: every statement succeeds and a cursor lists
    the stored rows. *)
#[export] Instance memory_engine : SqlEngine (list row) := {
  sql_connect := fun _ => inr [];
  sql_execute := fun c _ _ => (inr c, c);
  sql_executescript := fun c _ => (None, c);
  sql_commit := fun c => c;
  sql_rollback := fun c => c;
  sql_close := fun _ => None
}.

Definition alice : row := [("id", VInt 1); ("name", VStr "Alice")].

Definition logger : Plugin :=
  mkPlugin 0 ["before_save"; "after_save"; "before_update"; "after_update"]
           (fun updates => updates).

Definition auditor : Plugin :=
  mkPlugin 1 ["before_query"; "after_save"] (fun updates => updates).

Definition world0 : World (list row) :=
  mkWorld "app.db" (Some [alice]) [logger; auditor] [].

Definition offline : World (list row) :=
  mkWorld "app.db" None [logger; auditor] [].

Definition User : ModelClass :=
  mkModel "users"
          [("id", IntegerField true true false VNone);
           ("name", TextField false false true VNone);
           ("age", IntegerField false true false (VInt 0))].

(** A sequence of [filter] calls on a query set, oldest first. *)
Definition apply_filters (calls : list kwargs) (qs : QuerySet) : QuerySet :=
  fold_left (fun q kw => QuerySet.filter kw q) calls qs.

(** The WHERE clause of a statement that has equality filters only. *)
Definition equality_where (fs : list (string * value)) : string :=
  match fs with
  | [] => ""
  | _ => " WHERE " ++ join " AND " (map (fun kv => fst kv ++ " = ?") fs)
  end.

(** [direction] in [set_order]. *)
Definition direction (descending : bool) : string :=
  if descending then "DESC" else "ASC".

(** A sequence of [order_by] calls on a query set, oldest first. *)
Definition apply_order_bys (calls : list (string * bool)) (qs : QuerySet)
  : QuerySet :=
  fold_left (fun q c => QuerySet.order_by (fst c) (snd c) q) calls qs.

(** One more statement on a live connection: the hooks that see it, then
    the statement itself. *)
Definition statement_events (ps : list Plugin) (query : string)
           (params : list value) : list event :=
  (hook_calls ps "before_query" [AText query; ATuple params] []
   ++ [EExec query params])%list.

(** The operations that need a live connection. *)
Inductive db_operation (conn : Type) : Type :=
| OpExecute (query : string) (params : list value)
| OpFetchOne (query : string) (params : list value)
| OpFetchAll (query : string) (params : list value)
| OpExecuteScript (script : string)
| OpTransaction (body : M conn unit)
| OpCreateTable (cls : ModelClass)
| OpDropTable (cls : ModelClass)
| OpCreate (cls : ModelClass) (kw : kwargs)
| OpGet (cls : ModelClass) (kw : kwargs)
| OpAll (cls : ModelClass)
| OpUpdate (cls : ModelClass) (where_ updates : kwargs)
| OpDelete (cls : ModelClass) (kw : kwargs).

Arguments OpExecute {conn} query params.
Arguments OpFetchOne {conn} query params.
Arguments OpFetchAll {conn} query params.
Arguments OpExecuteScript {conn} script.
Arguments OpTransaction {conn} body.
Arguments OpCreateTable {conn} cls.
Arguments OpDropTable {conn} cls.
Arguments OpCreate {conn} cls kw.
Arguments OpGet {conn} cls kw.
Arguments OpAll {conn} cls.
Arguments OpUpdate {conn} cls where_ updates.
Arguments OpDelete {conn} cls kw.

(** The mappings that an operation unpacks into a call name none of the
    parameters that the call binds by position. *)
Definition unpacks_cleanly {conn : Type} (op : db_operation conn) : Prop :=
  match op with
  | OpCreate _ kw => first_collision ["self"; "hook_name"] kw = None
  | OpUpdate _ where_ _ => first_collision ["cls"; "db"] where_ = None
  | _ => True
  end.

Section Operations.
Context {conn : Type} {engine : SqlEngine conn}.

(** Run a computation for its effects and its exception. *)
Definition void {A : Type} (m : M conn A) : M conn unit :=
  m ;;; ret tt.

Definition run_operation (op : db_operation conn) : M conn unit :=
  match op with
  | OpExecute query params => void (DBBase.execute query params)
  | OpFetchOne query params => void (DBBase.fetch_one query params)
  | OpFetchAll query params => void (DBBase.fetch_all query params)
  | OpExecuteScript script => DBBase.execute_script script
  | OpTransaction body => DBBase.transaction body
  | OpCreateTable cls => Model.create_table cls
  | OpDropTable cls => Model.drop_table cls
  | OpCreate cls kw => Model.create cls kw
  | OpGet cls kw => void (Model.get cls kw)
  | OpAll cls => void (Model.all cls)
  | OpUpdate cls where_ updates => Model.update cls where_ updates
  | OpDelete cls kw => Model.delete cls kw
  end.

End Operations.

(** How many times a hook was called in a trace. *)
Definition is_hook (hook_name : string) (e : event) : bool :=
  match e with
  | EHook _ h _ _ => String.eqb h hook_name
  | _ => false
  end.

Definition hook_count (hook_name : string) (t : list event) : nat :=
  length (filter (is_hook hook_name) t).

(** The plugins that answer a hook. *)
Definition listeners (ps : list Plugin) (hook_name : string) : nat :=
  length (filter (fun p => has_hook p hook_name) ps).

(** ** models.py: ModelMeta and Field.__str__ *)

(** [Field.__str__] *)
Definition Field_str (f : Field) : string := "FIELD " ++ get_definition f.

(** An attribute of a class body: a field, or a plain value. *)
Inductive attribute : Type :=
| AttrField (f : Field)
| AttrValue (v : value).

(** The comprehension of [ModelMeta.__new__]: the attributes that are
    fields, in the order of the class body. *)
Fixpoint collect_fields (attrs : list (string * attribute))
  : list (string * Field) :=
  match attrs with
  | [] => []
  | (name, AttrField field) :: rest => (name, field) :: collect_fields rest
  | (_, AttrValue _) :: rest => collect_fields rest
  end.

Fixpoint lookup_attr (name : string) (attrs : list (string * attribute))
  : option attribute :=
  match attrs with
  | [] => None
  | (n, a) :: rest => if String.eqb n name then Some a else lookup_attr name rest
  end.

(** What an f-string makes of an attribute. *)
Definition attribute_str (a : attribute) : string :=
  match a with
  | AttrField f => Field_str f
  | AttrValue v => py_str v
  end.

(** A class statement with [Model] as its only base: [table_name] is the
    attribute of the body or, without one, the [None] of [Model]; [_meta]
    holds the collected fields. [model_table] is the name as the statements
    format it. *)
Definition declare_model (attrs : list (string * attribute)) : ModelClass :=
  mkModel
    (match lookup_attr "table_name" attrs with
     | Some a => attribute_str a
     | None => py_str VNone
     end)
    (collect_fields attrs).

(** A column of [create_table]. *)
Definition column (nf : string * Field) : string :=
  fst nf ++ " " ++ get_definition (snd nf).

Definition with_default (d : value) (f : Field) : Field :=
  mkField (field_type f) (primary_key f) (nullable f) (unique f) d.

Definition with_unique (u : bool) (f : Field) : Field :=
  mkField (field_type f) (primary_key f) (nullable f) u (default f).

(** ** Commits, rollbacks and frames *)

Definition is_tx (e : event) : bool :=
  match e with
  | ECommit => true
  | ERollback => true
  | _ => false
  end.

(** The commits and rollbacks of a trace, in order. *)
Definition transactions (t : list event) : list event := filter is_tx t.

(** The operations that only read. *)
Inductive read_operation : Type :=
| ReadFetchOne (query : string) (params : list value)
| ReadFetchAll (query : string) (params : list value)
| ReadModelAll (cls : ModelClass)
| ReadModelGet (cls : ModelClass) (kw : kwargs)
| ReadQuerySetAll (qs : QuerySet)
| ReadQuerySetGet (kw : kwargs) (qs : QuerySet).

Section Frames.
Context {conn : Type} {engine : SqlEngine conn}.

Definition run_read (op : read_operation) : M conn unit :=
  match op with
  | ReadFetchOne query params => void (DBBase.fetch_one query params)
  | ReadFetchAll query params => void (DBBase.fetch_all query params)
  | ReadModelAll cls => void (Model.all cls)
  | ReadModelGet cls kw => void (Model.get cls kw)
  | ReadQuerySetAll qs => void (QuerySet.all qs)
  | ReadQuerySetGet kw qs => void (snd (QuerySet.get kw qs))
  end.

(** A computation that leaves [db_path] and the plugins alone, keeps a
    connection established exactly when it was, and only adds to the
    trace. *)
Definition keeps_world {A : Type} (m : M conn A) : Prop :=
  forall (w w' : World conn) (r : result A),
    m w = (r, w') ->
    db_path w' = db_path w
    /\ plugins w' = plugins w
    /\ (connection w' = None <-> connection w = None)
    /\ exists evs : list event, trace w' = (trace w ++ evs)%list.

(** A computation that neither commits nor rolls back. *)
Definition leaves_transactions {A : Type} (m : M conn A) : Prop :=
  forall (w w' : World conn) (r : result A),
    m w = (r, w') -> transactions (trace w') = transactions (trace w).

End Frames.

(** ** An engine that checks its bindings *)

(** As [memory_engine], but a statement whose placeholders are not as many
    as its parameters is refused, as sqlite3 does. *)
Definition binding_engine : SqlEngine (list row) := {|
  sql_connect := fun _ => inr [];
  sql_execute := fun c query params =>
    if Nat.eqb (placeholders query) (length params)
    then (inr c, c)
    else (inl "Incorrect number of bindings supplied.", c);
  sql_executescript := fun c _ => (None, c);
  sql_commit := fun c => c;
  sql_rollback := fun c => c;
  sql_close := fun _ => None
|}.

(** The first value that is not a string. *)
Fixpoint first_non_str (vs : list value) : option value :=
  match vs with
  | [] => None
  | v :: rest => if is_str v then first_non_str rest else Some v
  end.

(** ** The [updates] dict and the [before_update] hooks *)

Definition before_update_events (ps : list Plugin) (instance : option row)
           (updates : kwargs) : list event :=
  fst (before_update_calls ps instance updates).

(** The dict as the [before_update] hooks leave it. *)
Definition edited_updates (ps : list Plugin) (instance : option row)
           (updates : kwargs) : kwargs :=
  snd (before_update_calls ps instance updates).


(** A plugin whose [before_update] adds an entry to the dict it is given. *)
Definition stamper : Plugin :=
  mkPlugin 2 ["before_update"]
           (fun updates => (updates ++ [("touched", VInt 1)])%list).

Definition world_stamped : World (list row) :=
  mkWorld "app.db" (Some [alice]) [stamper; logger] [].

(** * Properties *)

(** ** Strings *)

Lemma append_nil_r (s : string) : s ++ "" = s.
Proof. induction s as [|a s IH]; simpl; [reflexivity | now rewrite IH]. Qed.

Lemma append_assoc (a b c : string) : (a ++ b) ++ c = a ++ (b ++ c).
Proof. induction a as [|x a IH]; simpl; [reflexivity | now rewrite IH]. Qed.

Lemma count_char_append (c : ascii) (a b : string) :
  count_char c (a ++ b) = count_char c a + count_char c b.
Proof.
  induction a as [|x a IH]; simpl; [reflexivity |].
  rewrite IH. lia.
Qed.

Lemma join_cons2 (sep x y : string) (l : list string) :
  join sep (x :: y :: l) = x ++ sep ++ join sep (y :: l).
Proof. reflexivity. Qed.

(** A join of [n >= 1] parts that each hold one placeholder, with a
    separator that holds none, has [n] placeholders. *)
Lemma placeholders_join (sep : string) (parts : list string) :
  plain sep ->
  Forall (fun p => placeholders p = 1) parts ->
  placeholders (join sep parts) = length parts.
Proof.
  intros Hsep Hparts. induction Hparts as [|p l Hp Hl IH]; [reflexivity |].
  destruct l as [|y l].
  - simpl. exact Hp.
  - rewrite join_cons2. unfold placeholders in *.
    rewrite !count_char_append, Hp, IH. unfold plain, placeholders in Hsep.
    rewrite Hsep. simpl. lia.
Qed.

Lemma placeholders_suffix (name suffix : string) :
  plain name -> placeholders (name ++ suffix) = placeholders suffix.
Proof.
  unfold plain, placeholders. intros H. now rewrite count_char_append, H.
Qed.

(** ** Field *)

Example get_definition_pk_unique :
  get_definition (IntegerField true false true (VInt 0))
  = "INTEGER PRIMARY KEY NOT NULL DEFAULT 0".
Proof. reflexivity. Qed.

Example get_definition_unique_only :
  get_definition (TextField false true true (VStr "anon"))
  = "TEXT UNIQUE DEFAULT anon".
Proof. reflexivity. Qed.

(** C8. [get_definition] is the storage type followed, in this order, by
    [ PRIMARY KEY] for a primary key, [ UNIQUE] for a unique field that is
    not a primary key, [ NOT NULL] for a field that is not nullable and
    [ DEFAULT <literal>] when a default is set, and by nothing else. *)
Theorem get_definition_clause_order (f : Field) :
  get_definition f = definition_spec f
  /\ get_definition f
     = field_type f
       ++ (if primary_key f then " PRIMARY KEY" else "")
       ++ (if unique f && negb (primary_key f) then " UNIQUE" else "")
       ++ (if nullable f then "" else " NOT NULL")
       ++ (if is_not_None (default f)
           then " DEFAULT " ++ py_str (default f) else "").
Proof.
  assert (H : get_definition f = definition_spec f).
  { unfold get_definition, definition_spec, definition_clauses,
      optional_clause, join.
    destruct (primary_key f), (unique f), (nullable f),
      (is_not_None (default f)); cbn [negb andb String.concat];
      rewrite ?append_assoc, ?append_nil_r; reflexivity. }
  split; [exact H |].
  rewrite H. unfold definition_spec, definition_clauses, optional_clause, join.
  destruct (primary_key f), (unique f), (nullable f),
    (is_not_None (default f)); cbn [negb andb String.concat];
    rewrite ?append_assoc, ?append_nil_r; reflexivity.
Qed.

(** ** QueryBuilder *)

Lemma add_filter_spec (kw : kwargs) (qb : QueryBuilder) :
  add_filter kw qb
  = mkQB (table_name qb) (filters qb ++ kw)%list (filter_likes qb)
         (ordering qb).
Proof.
  unfold add_filter. revert qb.
  induction kw as [|kv kw IH]; intros qb; simpl.
  - rewrite app_nil_r. now destruct qb.
  - rewrite IH. simpl. now rewrite <- app_assoc.
Qed.

Lemma add_filter_like_spec (kw : kwargs) (qb : QueryBuilder) :
  add_filter_like kw qb
  = mkQB (table_name qb) (filters qb) (filter_likes qb ++ kw)%list
         (ordering qb).
Proof.
  unfold add_filter_like. revert qb.
  induction kw as [|kv kw IH]; intros qb; simpl.
  - rewrite app_nil_r. now destruct qb.
  - rewrite IH. simpl. now rewrite <- app_assoc.
Qed.

(** The statement text is its four parts, in order. *)
Lemma select_text_clauses (qb : QueryBuilder) :
  select_text qb
  = "SELECT * FROM " ++ table_name qb
    ++ where_clause qb ++ where_like_clause qb ++ order_clause qb.
Proof.
  unfold select_text, where_clause, where_like_clause, order_clause,
    truthy_ordering.
  destruct (truthy_list (filters qb)), (truthy_list (filter_likes qb)),
    (ordering qb) as [o|]; try destruct (String.eqb o "");
    cbn [negb]; rewrite ?append_assoc; cbn [append];
    rewrite ?append_nil_r; reflexivity.
Qed.

Lemma wrap_likes_str (l : list (string * value)) :
  Forall (fun kv => is_str (snd kv) = true) l ->
  wrap_likes l = inr (map like_pattern (values l)).
Proof.
  induction 1 as [|[k v] l Hv Hl IH]; [reflexivity |].
  simpl in *. destruct v; try discriminate. simpl. now rewrite IH.
Qed.

Lemma wrap_likes_returns (l : list (string * value)) (ws : list value) :
  wrap_likes l = inr ws ->
  Forall (fun kv => is_str (snd kv) = true) l.
Proof.
  revert ws. induction l as [|[k v] l IH]; intros ws H; [constructor |].
  simpl in H. destruct v; simpl in H; try discriminate.
  destruct (wrap_likes l) as [e|ws'] eqn:E; [discriminate |].
  constructor; [reflexivity | eapply IH; reflexivity].
Qed.

Lemma truthy_list_nonempty {A : Type} (l : list A) :
  l <> [] -> truthy_list l = true.
Proof. destruct l; [congruence | reflexivity]. Qed.

Lemma placeholders_conditions (op : string) (l : list (string * value)) :
  placeholders op = 1 ->
  Forall (fun kv => plain (fst kv)) l ->
  placeholders (join " AND " (map (fun kv => fst kv ++ op) l)) = length l.
Proof.
  intros Hop Hl. rewrite placeholders_join.
  - now rewrite length_map.
  - reflexivity.
  - apply Forall_map. eapply Forall_impl; [| exact Hl].
    intros kv Hk. simpl in *. now rewrite placeholders_suffix.
Qed.

Example build_select_both :
  build_select (mkQB "t" [("a", VInt 1)] [("b", VStr "x")] None)
  = inr ("SELECT * FROM t WHERE a = ? WHERE b LIKE ?", [VInt 1; VStr "%x%"]).
Proof. reflexivity. Qed.

(** C1, as stated, fails: with one equality filter and one LIKE filter the
    LIKE clause is in the text, and there are as many placeholders as
    parameters. *)
Lemma like_clause_dropped_counterexample :
  let qb := mkQB "t" [("a", VInt 1)] [("b", VStr "x")] None in
  filters qb <> [] /\ filter_likes qb <> []
  /\ build_select qb
     = inr ("SELECT * FROM t WHERE a = ? WHERE b LIKE ?",
            [VInt 1; VStr "%x%"])
  /\ placeholders "SELECT * FROM t WHERE a = ? WHERE b LIKE ?" = 2
  /\ ~ like_clause_dropped qb.
Proof.
  cbv zeta. repeat split; try discriminate.
  intros (q & ps & Hb & Hq & Hlt).
  vm_compute in Hb. injection Hb as <- <-.
  vm_compute in Hlt. lia.
Qed.

(** C1, amended. With equality filters and LIKE filters both present (the
    LIKE values being strings), the statement holds the equality clause
    and then the LIKE clause, each behind its own [ WHERE ], the parameters
    are the equality values followed by the wrapped LIKE values, and, names
    without question marks, there are as many placeholders as parameters. *)
Theorem build_select_emits_both_clauses (qb : QueryBuilder) :
  filters qb <> [] ->
  filter_likes qb <> [] ->
  likes_are_str qb ->
  let q :=
    "SELECT * FROM " ++ table_name qb
    ++ " WHERE " ++ join " AND " (map (fun kv => fst kv ++ " = ?") (filters qb))
    ++ " WHERE "
    ++ join " AND " (map (fun kv => fst kv ++ " LIKE ?") (filter_likes qb))
    ++ order_clause qb in
  let ps :=
    (values (filters qb) ++ map like_pattern (values (filter_likes qb)))%list in
  build_select qb = inr (q, ps)
  /\ (plain_names qb -> placeholders q = length ps).
Proof.
  intros Hf Hl Hs q ps. split.
  - unfold build_select. rewrite (wrap_likes_str Hs), select_text_clauses.
    unfold where_clause, where_like_clause.
    rewrite (truthy_list_nonempty Hf), (truthy_list_nonempty Hl).
    subst q ps. now rewrite !append_assoc.
  - intros (Ht & Hfn & Hln & Ho). subst q ps.
    unfold placeholders in *.
    rewrite !count_char_append.
    fold (placeholders (join " AND "
            (map (fun kv => fst kv ++ " = ?") (filters qb)))).
    fold (placeholders (join " AND "
            (map (fun kv => fst kv ++ " LIKE ?") (filter_likes qb)))).
    rewrite (placeholders_conditions " = ?" eq_refl Hfn).
    rewrite (placeholders_conditions " LIKE ?" eq_refl Hln).
    unfold plain, placeholders in Ht, Ho. rewrite Ht, Ho.
    unfold values. rewrite length_app, !length_map. simpl. lia.
Qed.

Lemma build_select_emits_both_clauses_witness :
  build_select (mkQB "posts" [("author", VInt 7)]
                     [("title", VStr "rocq"); ("body", VStr "proof")]
                     (Some "id DESC"))
  = inr ("SELECT * FROM posts WHERE author = ? WHERE title LIKE ? AND body LIKE ? ORDER BY id DESC",
         [VInt 7; VStr "%rocq%"; VStr "%proof%"])
  /\ placeholders "SELECT * FROM posts WHERE author = ? WHERE title LIKE ? AND body LIKE ? ORDER BY id DESC" = 3.
Proof.
  pose (qb := mkQB "posts" [("author", VInt 7)]
                   [("title", VStr "rocq"); ("body", VStr "proof")]
                   (Some "id DESC")).
  assert (Hf : filters qb <> []) by discriminate.
  assert (Hl : filter_likes qb <> []) by discriminate.
  assert (Hs : likes_are_str qb) by (repeat constructor).
  destruct (build_select_emits_both_clauses Hf Hl Hs) as [Hb Hp].
  split; [exact Hb |].
  apply Hp. repeat split; repeat constructor.
Defined.

Lemma build_select_of_str (qb : QueryBuilder) :
  likes_are_str qb ->
  build_select qb
  = inr (select_text qb,
         (values (filters qb)
          ++ map like_pattern (values (filter_likes qb)))%list).
Proof.
  intros Hs. unfold build_select. now rewrite (wrap_likes_str Hs).
Qed.

(** [build_select] returns exactly when the LIKE values are strings. *)
Lemma build_select_returns_iff (qb : QueryBuilder) :
  (exists q ps, build_select qb = inr (q, ps)) <-> likes_are_str qb.
Proof.
  split.
  - intros (q & ps & H). unfold build_select in H.
    destruct (wrap_likes (filter_likes qb)) as [e|ws] eqn:E; [discriminate |].
    exact (wrap_likes_returns _ E).
  - intros Hs. rewrite (build_select_of_str Hs). eauto.
Qed.

Example build_select_non_str_like :
  build_select (add_filter_like [("age", VInt 5)] (new_QueryBuilder "users"))
  = inl (TypeError (ConcatNonStr "int")).
Proof. reflexivity. Qed.

(** C2. For every builder, the parameter tuple that [build_select] returns
    is the equality values in insertion order followed by the LIKE values,
    each between two percent signs, in insertion order; it is a function of
    the values alone, whatever the statement text is. [build_select]
    returns exactly when the LIKE values are strings. *)
Theorem build_select_params (qb : QueryBuilder) :
  (forall (q : string) (ps : list value),
      build_select qb = inr (q, ps) ->
      q = select_text qb
      /\ ps = (values (filters qb)
               ++ map like_pattern (values (filter_likes qb)))%list
      /\ Forall (fun v => exists s, v = VStr ("%" ++ s ++ "%"))
                (map like_pattern (values (filter_likes qb))))
  /\ ((exists (q : string) (ps : list value), build_select qb = inr (q, ps))
      <-> likes_are_str qb)
  /\ (likes_are_str qb ->
      build_select qb
      = inr (select_text qb,
             (values (filters qb)
              ++ map like_pattern (values (filter_likes qb)))%list))
  /\ (forall (qb' : QueryBuilder) (q q' : string) (ps ps' : list value),
        values (filters qb') = values (filters qb) ->
        values (filter_likes qb') = values (filter_likes qb) ->
        build_select qb = inr (q, ps) ->
        build_select qb' = inr (q', ps') ->
        ps' = ps).
Proof.
  assert (Hret : forall (b : QueryBuilder) (q : string) (ps : list value),
             build_select b = inr (q, ps) ->
             likes_are_str b
             /\ q = select_text b
             /\ ps = (values (filters b)
                      ++ map like_pattern (values (filter_likes b)))%list).
  { intros b q ps H.
    assert (Hs : likes_are_str b).
    { apply build_select_returns_iff. exists q, ps. exact H. }
    rewrite (build_select_of_str Hs) in H. injection H as <- <-. auto. }
  split; [| split; [apply build_select_returns_iff | split]].
  - intros q ps H. destruct (Hret _ _ _ H) as (Hs & Hq & Hps).
    split; [exact Hq | split; [exact Hps |]].
    unfold values. rewrite !Forall_map.
    eapply Forall_impl; [| exact Hs].
    intros [k v] Hv. simpl in *. destruct v; try discriminate.
    now exists s.
  - apply build_select_of_str.
  - intros qb' q q' ps ps' Hf Hl H H'.
    destruct (Hret _ _ _ H) as (_ & _ & ->).
    destruct (Hret _ _ _ H') as (_ & _ & ->).
    now rewrite Hf, Hl.
Qed.

Lemma build_select_params_witness :
  build_select (mkQB "posts" [("author", VInt 7); ("draft", VBool false)]
                     [("title", VStr "rocq")] None)
  = inr ("SELECT * FROM posts WHERE author = ? AND draft = ? WHERE title LIKE ?",
         [VInt 7; VBool false; VStr "%rocq%"]).
Proof.
  refine (proj1 (proj2 (proj2 (@build_select_params
                   (mkQB "posts" [("author", VInt 7); ("draft", VBool false)]
                         [("title", VStr "rocq")] None)))) _).
  repeat constructor.
Defined.

(** ** Accumulating filters *)

Lemma apply_filters_builder (calls : list kwargs) (qs : QuerySet) :
  query_builder (apply_filters calls qs)
  = add_filter (concat calls) (query_builder qs).
Proof.
  unfold apply_filters. revert qs.
  induction calls as [|kw calls IH]; intros qs.
  - reflexivity.
  - cbn [fold_left concat]. rewrite IH. unfold QuerySet.filter.
    cbn [query_builder]. rewrite !add_filter_spec.
    cbn [table_name filters filter_likes ordering].
    now rewrite app_assoc.
Qed.

Lemma select_text_equality_only (t : string) (fs : list (string * value)) :
  select_text (mkQB t fs [] None) = "SELECT * FROM " ++ t ++ equality_where fs.
Proof.
  rewrite select_text_clauses.
  unfold where_clause, where_like_clause, order_clause, equality_where.
  simpl. destruct fs; simpl; now rewrite ?append_nil_r.
Qed.

Example filter_a_then_b :
  build_select
    (query_builder
       (QuerySet.filter [("b", VInt 2)]
          (QuerySet.filter [("a", VInt 1)] (QuerySet.objects User))))
  = inr ("SELECT * FROM users WHERE a = ? AND b = ?", [VInt 1; VInt 2]).
Proof. reflexivity. Qed.

(** C6. [filter] calls append their pairs to the equality filters in call
    order and replace nothing; on a new query set, after [filter(a=1)] and
    [filter(b=2)], the compiled statement has the clause
    [WHERE a = ? AND b = ?] and the parameters [(1, 2)]. *)
Theorem filters_accumulate (cls : ModelClass) (qs : QuerySet)
        (calls : list kwargs) :
  filters (query_builder (apply_filters calls qs))
  = (filters (query_builder qs) ++ concat calls)%list
  /\ filter_likes (query_builder (apply_filters calls qs))
     = filter_likes (query_builder qs)
  /\ ordering (query_builder (apply_filters calls qs))
     = ordering (query_builder qs)
  /\ build_select (query_builder (apply_filters calls (QuerySet.objects cls)))
     = inr ("SELECT * FROM " ++ model_table cls
              ++ equality_where (concat calls),
            values (concat calls))
  /\ build_select
       (query_builder
          (QuerySet.filter [("b", VInt 2)]
             (QuerySet.filter [("a", VInt 1)] (QuerySet.objects cls))))
     = inr ("SELECT * FROM " ++ model_table cls ++ " WHERE a = ? AND b = ?",
            [VInt 1; VInt 2]).
Proof.
  rewrite !apply_filters_builder, !add_filter_spec. simpl.
  repeat split.
  unfold build_select. cbn [filter_likes filters wrap_likes].
  now rewrite select_text_equality_only, app_nil_r.
Qed.

(** ** Ordering *)

Lemma apply_orders_snoc (calls : list (string * bool)) (f : string) (d : bool)
      (qb : QueryBuilder) :
  apply_orders (calls ++ [(f, d)]) qb = set_order f d qb.
Proof.
  unfold apply_orders. rewrite fold_left_app. simpl.
  assert (H : forall q,
             table_name (fold_left (fun q c => set_order (fst c) (snd c) q)
                                   calls q) = table_name q
             /\ filters (fold_left (fun q c => set_order (fst c) (snd c) q)
                                   calls q) = filters q
             /\ filter_likes
                  (fold_left (fun q c => set_order (fst c) (snd c) q) calls q)
                = filter_likes q).
  { induction calls as [|c calls IH]; intros q; simpl; [auto |].
    destruct (IH (set_order (fst c) (snd c) q)) as (-> & -> & ->). auto. }
  destruct (H qb) as (Ht & Hf & Hl).
  unfold set_order at 1. now rewrite Ht, Hf, Hl.
Qed.

Lemma ordering_not_empty (f : string) (d : bool) :
  String.eqb (f ++ " " ++ direction d) "" = false.
Proof. destruct f, d; reflexivity. Qed.

Lemma select_text_set_order (f : string) (d : bool) (qb : QueryBuilder) :
  select_text (set_order f d qb)
  = select_text (clear_order qb) ++ " ORDER BY " ++ f ++ " " ++ direction d.
Proof.
  rewrite !select_text_clauses.
  unfold where_clause, where_like_clause, order_clause, set_order,
    clear_order.
  cbn [ordering table_name filters filter_likes].
  change (if d then "DESC" else "ASC") with (direction d).
  rewrite ordering_not_empty.
  rewrite append_nil_r, !append_assoc. reflexivity.
Qed.

Example order_x_then_y_desc :
  build_select
    (set_order "y" true (set_order "x" false (new_QueryBuilder "t")))
  = inr ("SELECT * FROM t ORDER BY y DESC", []).
Proof. reflexivity. Qed.

Lemma build_select_set_order (f : string) (d : bool) (qb : QueryBuilder) :
  build_select (set_order f d qb)
  = match build_select (clear_order qb) with
    | inl e => inl e
    | inr (q, ps) => inr (q ++ " ORDER BY " ++ f ++ " " ++ direction d, ps)
    end.
Proof.
  unfold build_select.
  rewrite select_text_set_order.
  unfold set_order, clear_order. cbn [filter_likes filters].
  destruct (wrap_likes (filter_likes qb)); reflexivity.
Qed.

(** C7. After any sequence of [set_order] (or [order_by]) calls the builder
    is the one that the last call alone gives. The statement that
    [build_select] returns is the statement of the builder without any
    ordering followed by [ ORDER BY], the last field and its direction,
    with the same parameters; it returns whenever the builder without
    ordering compiles. After [order_by('x')] and
    [order_by('y', descending=True)] the statement ends with
    [ORDER BY y DESC] and holds nothing of [x]: on a new query set it is
    [SELECT * FROM t ORDER BY y DESC]. *)
Theorem last_order_wins (qb : QueryBuilder) (calls : list (string * bool))
        (f : string) (d : bool) :
  let after := apply_orders (calls ++ [(f, d)]) qb in
  let plain_text := select_text (clear_order qb) in
  after = set_order f d qb
  /\ ordering after = Some (f ++ " " ++ direction d)
  /\ select_text after
     = plain_text ++ " ORDER BY " ++ f ++ " " ++ direction d
  /\ (forall (q : string) (ps : list value),
        build_select after = inr (q, ps) ->
        q = plain_text ++ " ORDER BY " ++ f ++ " " ++ direction d
        /\ build_select (clear_order qb) = inr (plain_text, ps))
  /\ (likes_are_str qb ->
      build_select after
      = inr (plain_text ++ " ORDER BY " ++ f ++ " " ++ direction d,
             (values (filters qb)
              ++ map like_pattern (values (filter_likes qb)))%list))
  /\ (likes_are_str qb ->
      build_select (set_order "y" true (set_order "x" false qb))
      = inr (plain_text ++ " ORDER BY y DESC",
             (values (filters qb)
              ++ map like_pattern (values (filter_likes qb)))%list))
  /\ (forall cls : ModelClass,
        build_select
          (query_builder
             (QuerySet.order_by "y" true
                (QuerySet.order_by "x" false (QuerySet.objects cls))))
        = inr ("SELECT * FROM " ++ model_table cls ++ " ORDER BY y DESC", []))
  /\ (forall qs : QuerySet,
        query_builder (apply_order_bys (calls ++ [(f, d)]) qs)
        = set_order f d (query_builder qs)).
Proof.
  intros after plain_text. subst after plain_text.
  rewrite apply_orders_snoc.
  assert (Hstr : forall (g : string) (b : bool) (q0 : QueryBuilder),
             likes_are_str q0 ->
             build_select (set_order g b q0)
             = inr (select_text (clear_order q0) ++ " ORDER BY " ++ g ++ " "
                      ++ direction b,
                    (values (filters q0)
                     ++ map like_pattern (values (filter_likes q0)))%list)).
  { intros g b q0 Hs. rewrite build_select_set_order.
    assert (Hs' : likes_are_str (clear_order q0)) by exact Hs.
    now rewrite (build_select_of_str Hs'). }
  split; [reflexivity | split; [reflexivity | split]].
  - apply select_text_set_order.
  - split; [| split; [| split; [| split]]].
    + intros q ps H. rewrite build_select_set_order in H.
      destruct (build_select (clear_order qb)) as [e|[q0 ps0]] eqn:E;
        [discriminate |].
      injection H as <- <-.
      assert (Hs : likes_are_str (clear_order qb)).
      { apply build_select_returns_iff. eauto. }
      rewrite (build_select_of_str Hs) in E. injection E as <- <-.
      split; reflexivity.
    + apply Hstr.
    + intros Hs. exact (Hstr "y" true (set_order "x" false qb) Hs).
    + intros cls. reflexivity.
    + intros qs. rewrite <- (apply_orders_snoc calls f d (query_builder qs)).
      unfold apply_order_bys, apply_orders.
      generalize (calls ++ [(f, d)])%list. intros l. revert qs.
      induction l as [|c l IH]; intros qs; simpl; [reflexivity |].
      now rewrite IH.
Qed.

Lemma last_order_wins_witness :
  build_select
    (apply_orders [("x", false); ("y", true)]
       (mkQB "posts" [("author", VInt 7)] [("title", VStr "rocq")] None))
  = inr ("SELECT * FROM posts WHERE author = ? WHERE title LIKE ? ORDER BY y DESC",
         [VInt 7; VStr "%rocq%"]).
Proof.
  refine (proj1 (proj2 (proj2 (proj2 (proj2
    (@last_order_wins
       (mkQB "posts" [("author", VInt 7)] [("title", VStr "rocq")] None)
       [("x", false)] "y" true))))) _).
  repeat constructor.
Defined.

(** ** Effects: hooks, statements, transactions *)

Section EffectLemmas.
Context {conn : Type} {engine : SqlEngine conn}.

Lemma bind_ok {A B : Type} (m : M conn A) (k : A -> M conn B)
      (w w' : World conn) (a : A) :
  m w = (inr a, w') -> bind m k w = k a w'.
Proof. intros H. unfold bind. now rewrite H. Qed.

Lemma bind_raise {A B : Type} (m : M conn A) (k : A -> M conn B)
      (w w' : World conn) (e : exn) :
  m w = (inl e, w') -> bind m k w = (inl e, w').
Proof. intros H. unfold bind. now rewrite H. Qed.

Lemma call_hook_run (hook_name : string) (args : list hook_arg) (kw : kwargs)
      (w : World conn) :
  PluginManager.call_hook hook_name args kw w
  = (inr tt,
     mkWorld (db_path w) (connection w) (plugins w)
             (trace w ++ hook_calls (plugins w) hook_name args kw)).
Proof. reflexivity. Qed.

Lemma call_hook_unpacking_ok (hook_name : string) (args : list hook_arg)
      (kw : kwargs) (w : World conn) :
  first_collision ["self"; "hook_name"] kw = None ->
  PluginManager.call_hook_unpacking hook_name args kw w
  = (inr tt,
     mkWorld (db_path w) (connection w) (plugins w)
             (trace w ++ hook_calls (plugins w) hook_name args kw)).
Proof.
  intros H. unfold PluginManager.call_hook_unpacking, bind, lift,
    bind_keywords.
  now rewrite H.
Qed.

Lemma call_hook_unpacking_refused (hook_name : string) (args : list hook_arg)
      (kw : kwargs) (w : World conn) (k : string) :
  first_collision ["self"; "hook_name"] kw = Some k ->
  PluginManager.call_hook_unpacking hook_name args kw w
  = (inl (TypeError (MultipleValues "PluginManager.call_hook" k)), w).
Proof.
  intros H. unfold PluginManager.call_hook_unpacking, bind, lift,
    bind_keywords.
  now rewrite H.
Qed.

Lemma call_hook_before_update_run (instance : option row) (updates : kwargs)
      (w : World conn) :
  PluginManager.call_hook_before_update instance updates w
  = (inr (edited_updates (plugins w) instance updates),
     mkWorld (db_path w) (connection w) (plugins w)
             (trace w ++ before_update_events (plugins w) instance updates)).
Proof.
  unfold PluginManager.call_hook_before_update, edited_updates,
    before_update_events.
  now destruct (before_update_calls (plugins w) instance updates).
Qed.


Lemma execute_offline (query : string) (params : list value)
      (w : World conn) :
  connection w = None ->
  DBBase.execute query params w = (inl not_established, w).
Proof.
  intros H. unfold DBBase.execute, bind, get_connection. now rewrite H.
Qed.

Lemma execute_ok (query : string) (params : list value) (w : World conn)
      (c c' : conn) (rows : list row) :
  connection w = Some c ->
  sql_execute c query params = (inr rows, c') ->
  DBBase.execute query params w
  = (inr rows,
     mkWorld (db_path w) (Some c') (plugins w)
             (trace w ++ statement_events (plugins w) query params)).
Proof.
  intros Hc He.
  unfold DBBase.execute, DBBase.on_connection, bind, get_connection.
  rewrite Hc. cbn. rewrite Hc, He. cbn.
  unfold statement_events. now rewrite app_assoc.
Qed.

Lemma execute_failed (query : string) (params : list value) (w : World conn)
      (c c' : conn) (msg : string) :
  connection w = Some c ->
  sql_execute c query params = (inl msg, c') ->
  DBBase.execute query params w
  = (inl (DatabaseConnectionError ("Failed to execute query: " ++ msg)),
     mkWorld (db_path w) (Some c') (plugins w)
             (trace w ++ statement_events (plugins w) query params)).
Proof.
  intros Hc He.
  unfold DBBase.execute, DBBase.on_connection, bind, get_connection.
  rewrite Hc. cbn. rewrite Hc, He. cbn.
  unfold statement_events. now rewrite app_assoc.
Qed.

Lemma transaction_offline {A : Type} (body : M conn A) (w : World conn) :
  connection w = None ->
  DBBase.transaction body w = (inl not_established, w).
Proof. intros H. unfold DBBase.transaction. now rewrite H. Qed.

Lemma transaction_ok {A : Type} (body : M conn A) (w w1 : World conn)
      (c c1 : conn) (a : A) :
  connection w = Some c ->
  body w = (inr a, w1) ->
  connection w1 = Some c1 ->
  DBBase.transaction body w
  = (inr a,
     mkWorld (db_path w1) (Some (sql_commit c1)) (plugins w1)
             (trace w1 ++ [ECommit])).
Proof.
  intros Hc Hb Hc1. unfold DBBase.transaction. rewrite Hc, Hb.
  unfold DBBase.commit, DBBase.on_connection, bind, get_connection.
  now rewrite Hc1.
Qed.

(** The statement of a [with db.transaction()] block, run and committed. *)
Lemma transaction_execute_ok (query : string) (params : list value)
      (w : World conn) (c c' : conn) (rows : list row) :
  connection w = Some c ->
  sql_execute c query params = (inr rows, c') ->
  DBBase.transaction (DBBase.execute query params ;;; ret tt) w
  = (inr tt,
     mkWorld (db_path w) (Some (sql_commit c')) (plugins w)
             (trace w ++ statement_events (plugins w) query params
                ++ [ECommit])).
Proof.
  intros Hc He.
  rewrite (@transaction_ok unit _ w
             (mkWorld (db_path w) (Some c') (plugins w)
                (trace w ++ statement_events (plugins w) query params))
             c c' tt Hc).
  - cbn. now rewrite <- app_assoc.
  - rewrite (bind_ok _ _ _ (execute_ok _ _ _ Hc He)). reflexivity.
  - reflexivity.
Qed.

Lemma executed_app (t1 t2 : list event) :
  executed (t1 ++ t2) = (executed t1 ++ executed t2)%list.
Proof. apply filter_app. Qed.

Lemma executed_hook_calls (ps : list Plugin) (hook_name : string)
      (args : list hook_arg) (kw : kwargs) :
  executed (hook_calls ps hook_name args kw) = [].
Proof.
  unfold hook_calls, executed.
  induction (filter (fun p => has_hook p hook_name) ps) as [|p l IH];
    [reflexivity | exact IH].
Qed.

Lemma executed_statement_events (ps : list Plugin) (query : string)
      (params : list value) :
  executed (statement_events ps query params) = [EExec query params].
Proof.
  unfold statement_events.
  now rewrite executed_app, executed_hook_calls.
Qed.

End EffectLemmas.

Lemma hook_count_app (h : string) (t1 t2 : list event) :
  hook_count h (t1 ++ t2) = hook_count h t1 + hook_count h t2.
Proof. unfold hook_count. now rewrite filter_app, length_app. Qed.

Lemma hook_count_hook_calls (h h' : string) (ps : list Plugin)
      (args : list hook_arg) (kw : kwargs) :
  hook_count h (hook_calls ps h' args kw)
  = if String.eqb h' h then listeners ps h' else 0.
Proof.
  unfold hook_count, hook_calls, listeners.
  induction (filter (fun p => has_hook p h') ps) as [|p l IH]; simpl.
  - now destruct (String.eqb h' h).
  - destruct (String.eqb h' h); simpl; now rewrite IH.
Qed.

Lemma placeholders_repeat (kw : kwargs) :
  map (fun _ : string * value => "?") kw = repeat "?" (length kw).
Proof. induction kw as [|kv kw IH]; simpl; [reflexivity | now rewrite IH]. Qed.

(** ** Model.create *)

Example create_alice :
  trace (snd (Model.create User [("name", VStr "Alice"); ("age", VInt 30)]
                           world0))
  = [EHook 0 "before_save" [ADb] [("name", VStr "Alice"); ("age", VInt 30)];
     EHook 1 "before_query"
           [AText "INSERT INTO users (name, age) VALUES (?, ?)";
            ATuple [VStr "Alice"; VInt 30]] [];
     EExec "INSERT INTO users (name, age) VALUES (?, ?)"
           [VStr "Alice"; VInt 30];
     ECommit;
     EHook 0 "after_save" [ADb] [("name", VStr "Alice"); ("age", VInt 30)];
     EHook 1 "after_save" [ADb] [("name", VStr "Alice"); ("age", VInt 30)]].
Proof. reflexivity. Qed.

Section ModelCreate.
Context {conn : Type} {engine : SqlEngine conn}.

(** C5, as stated, fails: a field named [self] (or [hook_name]) is bound
    twice in the call of [call_hook], and [create] raises [TypeError] before
    any hook is called and any statement sent, on a live connection whose
    engine accepts every statement. *)
Lemma create_reserved_field_counterexample :
  Model.create User [("self", VInt 1)] world0
  = (inl (TypeError (MultipleValues "PluginManager.call_hook" "self")), world0)
  /\ executed (trace (snd (Model.create User [("self", VInt 1)] world0))) = []
  /\ hook_count "before_save"
       (trace (snd (Model.create User [("self", VInt 1)] world0))) = 0.
Proof. repeat split. Qed.

(** C5, amended. For fields not named [self] or [hook_name], on a live
    connection whose engine accepts the statement, [create] sends exactly [INSERT INTO t (<names>) VALUES (<one ? per name>)] with
    the supplied values as parameters, in order; the text depends on the
    names only; each plugin's [before_save] is called once, before the
    statement, and each plugin's [after_save] once, after the commit, both
    with the same keyword values. *)
Theorem create_inserts_with_bound_parameters
        (cls : ModelClass) (kw : kwargs) (w : World conn) (c c' : conn)
        (rows : list row) :
  first_collision ["self"; "hook_name"] kw = None ->
  connection w = Some c ->
  sql_execute c (Model.create_query cls kw) (values kw) = (inr rows, c') ->
  let query :=
    "INSERT INTO " ++ model_table cls ++ " (" ++ join ", " (keys kw)
      ++ ") VALUES (" ++ join ", " (repeat "?" (length kw)) ++ ")" in
  let w' := snd (Model.create cls kw w) in
  Model.create_query cls kw = query
  /\ (forall kw' : kwargs,
        keys kw' = keys kw -> Model.create_query cls kw' = query)
  /\ Model.create cls kw w
     = (inr tt,
        mkWorld (db_path w) (Some (sql_commit c')) (plugins w)
          (trace w
             ++ hook_calls (plugins w) "before_save" [ADb] kw
             ++ hook_calls (plugins w) "before_query"
                           [AText query; ATuple (values kw)] []
             ++ [EExec query (values kw); ECommit]
             ++ hook_calls (plugins w) "after_save" [ADb] kw))
  /\ executed (trace w') = (executed (trace w) ++ [EExec query (values kw)])%list
  /\ hook_count "before_save" (trace w')
     = hook_count "before_save" (trace w) + listeners (plugins w) "before_save"
  /\ hook_count "after_save" (trace w')
     = hook_count "after_save" (trace w) + listeners (plugins w) "after_save".
Proof.
  intros Hfree Hc He query w'.
  assert (Hq : forall kw' : kwargs,
             keys kw' = keys kw -> Model.create_query cls kw' = query).
  { intros kw' Hk. unfold Model.create_query, query. rewrite Hk.
    rewrite placeholders_repeat.
    replace (length kw') with (length kw); [reflexivity |].
    unfold keys in Hk.
    now rewrite <- (length_map fst kw), <- Hk, length_map. }
  assert (Hrun : Model.create cls kw w
     = (inr tt,
        mkWorld (db_path w) (Some (sql_commit c')) (plugins w)
          (trace w
             ++ hook_calls (plugins w) "before_save" [ADb] kw
             ++ hook_calls (plugins w) "before_query"
                           [AText query; ATuple (values kw)] []
             ++ [EExec query (values kw); ECommit]
             ++ hook_calls (plugins w) "after_save" [ADb] kw))).
  { unfold Model.create.
    rewrite (bind_ok _ _ _ (call_hook_unpacking_ok "before_save" [ADb] kw w Hfree)).
    rewrite (Hq kw eq_refl) in *.
    erewrite bind_ok; [| eapply transaction_execute_ok; [exact Hc | exact He]].
    rewrite (call_hook_unpacking_ok _ _ _ _ Hfree).
    cbn [db_path connection plugins trace].
    unfold statement_events. now rewrite <- !app_assoc. }
  split; [apply Hq; reflexivity | split; [exact Hq | split; [exact Hrun |]]].
  subst w'. rewrite Hrun. cbn [snd trace].
  repeat split.
  - rewrite !executed_app, !executed_hook_calls. reflexivity.
  - rewrite !hook_count_app, !hook_count_hook_calls. cbn. lia.
  - rewrite !hook_count_app, !hook_count_hook_calls. cbn. lia.
Qed.

End ModelCreate.

Lemma create_inserts_with_bound_parameters_witness :
  Model.create User [("name", VStr "Alice"); ("age", VInt 30)] world0
  = (inr tt,
     mkWorld "app.db" (Some [alice]) [logger; auditor]
       [EHook 0 "before_save" [ADb] [("name", VStr "Alice"); ("age", VInt 30)];
        EHook 1 "before_query"
              [AText "INSERT INTO users (name, age) VALUES (?, ?)";
               ATuple [VStr "Alice"; VInt 30]] [];
        EExec "INSERT INTO users (name, age) VALUES (?, ?)"
              [VStr "Alice"; VInt 30];
        ECommit;
        EHook 0 "after_save" [ADb] [("name", VStr "Alice"); ("age", VInt 30)];
        EHook 1 "after_save" [ADb] [("name", VStr "Alice"); ("age", VInt 30)]]).
Proof.
  refine (proj1 (proj2 (proj2
    (@create_inserts_with_bound_parameters (list row) memory_engine User
       [("name", VStr "Alice"); ("age", VInt 30)] world0 [alice] [alice]
       [alice] _ _ _)))); reflexivity.
Defined.

(** ** Model.get and Model.update *)

Section ModelUpdate.
Context {conn : Type} {engine : SqlEngine conn}.

Lemma get_ok (cls : ModelClass) (kw : kwargs) (w : World conn) (c c' : conn)
      (rows : list row) :
  connection w = Some c ->
  sql_execute c (Model.get_query cls kw) (values kw) = (inr rows, c') ->
  Model.get cls kw w
  = (inr (DBBase.fetchone rows),
     mkWorld (db_path w) (Some c') (plugins w)
       (trace w
          ++ statement_events (plugins w) (Model.get_query cls kw)
                              (values kw))).
Proof.
  intros Hc He. unfold Model.get, DBBase.fetch_one.
  now rewrite (bind_ok _ _ _ (execute_ok _ _ _ Hc He)).
Qed.

Lemma get_unpacking_ok (cls : ModelClass) (kw : kwargs) (w : World conn) :
  first_collision ["cls"; "db"] kw = None ->
  Model.get_unpacking cls kw w = Model.get cls kw w.
Proof.
  intros H. unfold Model.get_unpacking, bind, lift, bind_keywords.
  now rewrite H.
Qed.

Lemma get_unpacking_refused (cls : ModelClass) (kw : kwargs) (w : World conn)
      (k : string) :
  first_collision ["cls"; "db"] kw = Some k ->
  Model.get_unpacking cls kw w
  = (inl (TypeError (MultipleValues "Model.get" k)), w).
Proof.
  intros H. unfold Model.get_unpacking, bind, lift, bind_keywords.
  now rewrite H.
Qed.



Example update_with_editing_hook :
  executed
    (trace (snd (Model.update User [("id", VInt 1)] [("name", VStr "Bob")]
                              world_stamped)))
  = [EExec "SELECT * FROM users WHERE id = ? LIMIT 1" [VInt 1];
     EExec "UPDATE users SET name = ?, touched = ? WHERE id = ?"
           [VStr "Bob"; VInt 1; VInt 1];
     EExec "SELECT * FROM users WHERE id = ? LIMIT 1" [VInt 1]].
Proof. reflexivity. Qed.


(** C10. Without conditions, [get] sends [SELECT * FROM t WHERE  LIMIT 1],
    an empty condition between [WHERE] and [LIMIT], to the engine: the call
    is not rejected and the clause is not left out. *)
Theorem get_without_conditions (cls : ModelClass) (w : World conn) (c : conn) :
  connection w = Some c ->
  let query := "SELECT * FROM " ++ model_table cls ++ " WHERE  LIMIT 1" in
  Model.get_query cls [] = query
  /\ (exists (r : result (option row)) (w' : World conn),
        Model.get cls [] w = (r, w')
        /\ trace w'
           = (trace w ++ statement_events (plugins w) query [])%list
        /\ executed (trace w') = (executed (trace w) ++ [EExec query []])%list).
Proof.
  intros Hc query.
  assert (Hq : Model.get_query cls [] = query).
  { unfold Model.get_query, query. cbn [keys map join String.concat].
    reflexivity. }
  split; [exact Hq |].
  destruct (sql_execute c (Model.get_query cls []) (values []))
    as [[msg|rows] c'] eqn:He.
  - eexists. eexists. unfold Model.get, DBBase.fetch_one.
    rewrite (bind_raise _ _ _ (execute_failed _ _ _ Hc He)).
    split; [reflexivity |]. cbn [trace]. rewrite Hq.
    split; [reflexivity |].
    now rewrite executed_app, executed_statement_events.
  - eexists. eexists. rewrite (get_ok _ _ _ Hc He).
    split; [reflexivity |]. cbn [trace]. rewrite Hq.
    split; [reflexivity |].
    now rewrite executed_app, executed_statement_events.
Qed.

End ModelUpdate.


Lemma get_without_conditions_witness :
  Model.get_query User [] = "SELECT * FROM users WHERE  LIMIT 1"
  /\ executed (trace (snd (Model.get User [] world0)))
     = [EExec "SELECT * FROM users WHERE  LIMIT 1" []].
Proof.
  destruct (@get_without_conditions (list row) memory_engine User world0
              [alice] eq_refl) as [Hq _].
  split; [exact Hq | reflexivity].
Defined.

(** ** Operations without a connection *)

Section NoConnection.
Context {conn : Type} {engine : SqlEngine conn}.

Lemma fetch_offline (cls : ModelClass) (kw : kwargs) (w : World conn) :
  connection w = None ->
  Model.get cls kw w = (inl not_established, w).
Proof.
  intros H. unfold Model.get, DBBase.fetch_one.
  now rewrite (bind_raise _ _ _ (execute_offline _ _ _ H)).
Qed.

(** C9, as stated, fails: without a connection, [create] with a field
    named [self] raises [TypeError], not [DatabaseConnectionError]. *)
Lemma no_connection_reserved_field_counterexample :
  run_operation (OpCreate User [("self", VInt 1)]) offline
  = (inl (TypeError (MultipleValues "PluginManager.call_hook" "self")),
     offline)
  /\ connection offline = None
  /\ fst (run_operation (OpCreate User [("self", VInt 1)]) offline)
     <> inl not_established.
Proof. repeat split. discriminate. Qed.

(** C9, amended. With no connection established, [execute], [fetch_one],
    [fetch_all], [execute_script], a transaction and the operations of a
    record type ([create_table], [drop_table], [create], [get], [all],
    [update], [delete]) raise [DatabaseConnectionError] (connection not
    established), as long as no field of [create] is named [self] or
    [hook_name] and no [where] key of [update] is named [cls] or [db]; no
    statement reaches an engine and there is still no connection. *)
Theorem no_connection_no_statement (op : db_operation conn) (w : World conn) :
  connection w = None ->
  unpacks_cleanly op ->
  exists w' : World conn,
    run_operation op w = (inl not_established, w')
    /\ connection w' = None
    /\ executed (trace w') = executed (trace w).
Proof.
  intros H Hfree. destruct op; cbn [run_operation]; unfold void.
  - exists w. now rewrite (bind_raise _ _ _ (execute_offline _ _ _ H)).
  - exists w. unfold DBBase.fetch_one.
    now rewrite (bind_raise _ _ _
                   (bind_raise _ _ _ (execute_offline _ _ _ H))).
  - exists w. unfold DBBase.fetch_all.
    now rewrite (bind_raise _ _ _
                   (bind_raise _ _ _ (execute_offline _ _ _ H))).
  - exists w. unfold DBBase.execute_script, bind, get_connection.
    now rewrite H.
  - exists w. now rewrite (transaction_offline _ _ H).
  - exists w. unfold Model.create_table.
    now rewrite (transaction_offline _ _ H).
  - exists w. unfold Model.drop_table.
    now rewrite (transaction_offline _ _ H).
  - eexists. unfold Model.create. cbn [unpacks_cleanly] in Hfree.
    rewrite (bind_ok _ _ _ (call_hook_unpacking_ok _ _ _ _ Hfree)).
    erewrite bind_raise; [| apply transaction_offline; exact H].
    split; [reflexivity | split; [exact H |]]. cbn [trace].
    now rewrite executed_app, executed_hook_calls, app_nil_r.
  - exists w. now rewrite (bind_raise _ _ _ (fetch_offline _ _ _ H)).
  - exists w. unfold Model.all, DBBase.fetch_all.
    now rewrite (bind_raise _ _ _
                   (bind_raise _ _ _ (execute_offline _ _ _ H))).
  - exists w. unfold Model.update. cbn [unpacks_cleanly] in Hfree.
    now rewrite (bind_raise _ _ _
                   (eq_trans (get_unpacking_ok _ _ _ Hfree)
                             (fetch_offline _ _ _ H))).
  - exists w. unfold Model.delete.
    now rewrite (bind_raise _ _ _ (fetch_offline _ _ _ H)).
Qed.

End NoConnection.

Lemma no_connection_no_statement_witness :
  exists w' : World (list row),
    Model.create User [("name", VStr "Alice")] offline
    = (inl (DatabaseConnectionError "Database connection is not established."),
       w')
    /\ connection w' = None
    /\ executed (trace w') = [].
Proof.
  exact (@no_connection_no_statement (list row) memory_engine
           (OpCreate User [("name", VStr "Alice")]) offline eq_refl eq_refl).
Defined.

(** ** QuerySet.get *)

Lemma where_clause_equality (qb : QueryBuilder) :
  where_clause qb = equality_where (filters qb).
Proof. unfold where_clause, equality_where. now destruct (filters qb). Qed.

Example get_twice_compounds :
  let qs := fst (QuerySet.get (conn := list row) [("id", VInt 1)]
                              (QuerySet.objects User)) in
  build_select (query_builder (fst (QuerySet.get (conn := list row)
                                      [("name", VStr "Alice")] qs)))
  = inr ("SELECT * FROM users WHERE id = ? AND name = ?",
         [VInt 1; VStr "Alice"]).
Proof. reflexivity. Qed.

Section QuerySetGet.
Context {conn : Type} {engine : SqlEngine conn}.

(** C4. [get] appends its pairs to the equality filters of the owned
    builder, whatever else happens, and they stay: statements compiled
    later on the same query set hold the filters added before, those of
    [get] and those added after. Besides that, when the SELECT compiles and
    the engine on a live connection answers it, [get] returns the first row
    of the answer, or nothing when there is no row. *)
Theorem get_leaves_its_filter (kw : kwargs) (self : QuerySet)
        (later : list kwargs) :
  let self' := fst (QuerySet.get (conn := conn) kw self) in
  let after := apply_filters later self' in
  let before := filters (query_builder self) in
  filters (query_builder self') = (before ++ kw)%list
  /\ filter_likes (query_builder self') = filter_likes (query_builder self)
  /\ ordering (query_builder self') = ordering (query_builder self)
  /\ table_name (query_builder self') = table_name (query_builder self)
  /\ filters (query_builder after) = (before ++ kw ++ concat later)%list
  /\ select_text (query_builder after)
     = "SELECT * FROM " ++ table_name (query_builder self)
       ++ equality_where (before ++ kw ++ concat later)
       ++ where_like_clause (query_builder self)
       ++ order_clause (query_builder self)
  /\ (forall (w : World conn) (c c' : conn) (query : string)
             (params : list value) (rows : list row),
        build_select (query_builder self') = inr (query, params) ->
        connection w = Some c ->
        sql_execute c query params = (inr rows, c') ->
        snd (QuerySet.get kw self) w
        = (inr (hd_error rows),
           mkWorld (db_path w) (Some c') (plugins w)
                   (trace w ++ statement_events (plugins w) query params))
        /\ query = select_text (query_builder self')
        /\ params
           = (values (before ++ kw)
              ++ map like_pattern
                     (values (filter_likes (query_builder self))))%list).
Proof.
  intros self' after before.
  assert (Hq : query_builder self'
               = mkQB (table_name (query_builder self)) (before ++ kw)%list
                      (filter_likes (query_builder self))
                      (ordering (query_builder self))).
  { subst self'. unfold QuerySet.get, QuerySet.filter.
    cbn [fst query_builder]. apply add_filter_spec. }
  assert (Ha : query_builder after
               = mkQB (table_name (query_builder self))
                      (before ++ kw ++ concat later)%list
                      (filter_likes (query_builder self))
                      (ordering (query_builder self))).
  { subst after. rewrite apply_filters_builder, add_filter_spec, Hq.
    cbn [table_name filters filter_likes ordering].
    now rewrite <- app_assoc. }
  rewrite Hq, Ha. cbn [table_name filters filter_likes ordering].
  repeat (split; [reflexivity |]).
  split.
  - rewrite select_text_clauses, where_clause_equality. reflexivity.
  - intros w c c' query params rows Hb Hc He.
    pose proof (proj1 (build_select_returns_iff _)
                  (ex_intro _ query (ex_intro _ params Hb))) as Hs.
    pose proof (build_select_of_str Hs) as Hb'.
    rewrite Hb in Hb'. injection Hb' as Hquery Hparams.
    cbn [table_name filters filter_likes ordering] in Hparams.
    split; [| split; [exact Hquery | exact Hparams]].
    unfold QuerySet.get. cbn [snd].
    change (QuerySet.filter kw self) with self'. rewrite Hq.
    rewrite (bind_ok (lift (build_select _)) _ w
               (a := (query, params)) (w' := w)).
    + cbn [fst snd]. unfold DBBase.fetch_one.
      now rewrite (bind_ok _ _ _ (execute_ok _ _ _ Hc He)).
    + unfold lift. now rewrite Hb.
Qed.

End QuerySetGet.

Lemma get_leaves_its_filter_witness :
  let qs := QuerySet.filter_like [("name", VStr "li")] (QuerySet.objects User) in
  filters (query_builder (fst (QuerySet.get (conn := list row)
                                 [("id", VInt 1)] qs)))
  = [("id", VInt 1)]
  /\ snd (QuerySet.get [("id", VInt 1)] qs) world0
     = (inr (Some alice),
        mkWorld "app.db" (Some [alice]) [logger; auditor]
          [EHook 1 "before_query"
                 [AText "SELECT * FROM users WHERE id = ? WHERE name LIKE ?";
                  ATuple [VInt 1; VStr "%li%"]] [];
           EExec "SELECT * FROM users WHERE id = ? WHERE name LIKE ?"
                 [VInt 1; VStr "%li%"]]).
Proof.
  cbv zeta.
  pose proof (@get_leaves_its_filter (list row) memory_engine
                [("id", VInt 1)]
                (QuerySet.filter_like [("name", VStr "li")]
                                      (QuerySet.objects User)) [])
    as (Hf & _ & _ & _ & _ & _ & Hget).
  split; [exact Hf |].
  exact (proj1 (Hget world0 [alice] [alice]
                  "SELECT * FROM users WHERE id = ? WHERE name LIKE ?"
                  [VInt 1; VStr "%li%"] [alice] eq_refl eq_refl eq_refl)).
Defined.

(** * Further properties of the code *)

(** ** Transactions *)

Section Transactions.
Context {conn : Type} {engine : SqlEngine conn}.

Lemma transaction_failed {A : Type} (body : M conn A) (w w1 : World conn)
      (c c1 : conn) (e : exn) :
  connection w = Some c ->
  body w = (inl e, w1) ->
  connection w1 = Some c1 ->
  DBBase.transaction body w
  = (inl e,
     mkWorld (db_path w1) (Some (sql_rollback c1)) (plugins w1)
             (trace w1 ++ [ERollback])).
Proof.
  intros Hc Hb Hc1. unfold DBBase.transaction. rewrite Hc, Hb.
  unfold DBBase.rollback, DBBase.on_connection, bind, get_connection.
  now rewrite Hc1.
Qed.

(** The statement of a [with db.transaction()] block, refused and rolled
    back. *)
Lemma transaction_execute_failed (query : string) (params : list value)
      (w : World conn) (c c' : conn) (msg : string) :
  connection w = Some c ->
  sql_execute c query params = (inl msg, c') ->
  DBBase.transaction (DBBase.execute query params ;;; ret tt) w
  = (inl (DatabaseConnectionError ("Failed to execute query: " ++ msg)),
     mkWorld (db_path w) (Some (sql_rollback c')) (plugins w)
             (trace w ++ statement_events (plugins w) query params
                ++ [ERollback])).
Proof.
  intros Hc He.
  rewrite (@transaction_failed unit _ w
             (mkWorld (db_path w) (Some c') (plugins w)
                (trace w ++ statement_events (plugins w) query params))
             c c'
             (DatabaseConnectionError ("Failed to execute query: " ++ msg))
             Hc).
  - cbn. now rewrite <- app_assoc.
  - now rewrite (bind_raise _ _ _ (execute_failed _ _ _ Hc He)).
  - reflexivity.
Qed.

(** X1. A transaction on a live connection runs its body. When the body
    leaves a connection established, the transaction commits if the body
    returned and rolls back if it raised, the value or the exception of the
    body comes out unchanged, and exactly one of the two events follows the
    effects of the body. When the body has dropped the connection, the
    transaction raises [AttributeError] (from [rollback] on [None]) and
    neither commits nor rolls back. *)
Theorem transaction_commits_or_rolls_back
        {A : Type} (body : M conn A) (w w1 : World conn) (c : conn)
        (r : result A) :
  connection w = Some c ->
  body w = (r, w1) ->
  DBBase.transaction body w
  = match connection w1 with
    | Some c1 =>
        (r,
         match r with
         | inr _ =>
             mkWorld (db_path w1) (Some (sql_commit c1)) (plugins w1)
                     (trace w1 ++ [ECommit])
         | inl _ =>
             mkWorld (db_path w1) (Some (sql_rollback c1)) (plugins w1)
                     (trace w1 ++ [ERollback])
         end)
    | None =>
        (inl (AttributeError "'NoneType' object has no attribute 'rollback'"),
         w1)
    end
  /\ transactions (trace (snd (DBBase.transaction body w)))
     = (transactions (trace w1)
        ++ match connection w1 with
           | Some _ => [match r with inr _ => ECommit | inl _ => ERollback end]
           | None => []
           end)%list.
Proof.
  intros Hc Hb.
  assert (H : DBBase.transaction body w
  = match connection w1 with
    | Some c1 =>
        (r,
         match r with
         | inr _ =>
             mkWorld (db_path w1) (Some (sql_commit c1)) (plugins w1)
                     (trace w1 ++ [ECommit])
         | inl _ =>
             mkWorld (db_path w1) (Some (sql_rollback c1)) (plugins w1)
                     (trace w1 ++ [ERollback])
         end)
    | None =>
        (inl (AttributeError "'NoneType' object has no attribute 'rollback'"),
         w1)
    end).
  { destruct (connection w1) as [c1|] eqn:Hc1.
    - destruct r as [e|a].
      + exact (transaction_failed _ _ Hc Hb Hc1).
      + exact (transaction_ok _ _ Hc Hb Hc1).
    - unfold DBBase.transaction. rewrite Hc, Hb.
      unfold DBBase.commit, DBBase.rollback, DBBase.on_connection, bind,
        get_connection, raise.
      destruct r as [e|a]; rewrite ?Hc1; reflexivity. }
  split; [exact H |]. rewrite H. unfold transactions.
  destruct (connection w1) as [c1|].
  - destruct r; cbn [snd trace]; now rewrite filter_app.
  - cbn [snd]. now rewrite app_nil_r.
Qed.

End Transactions.

Lemma transaction_commits_or_rolls_back_witness :
  @DBBase.transaction _ binding_engine _
     (@DBBase.execute _ binding_engine "DELETE FROM users WHERE id = ?" [])
     world0
  = (inl (DatabaseConnectionError
            "Failed to execute query: Incorrect number of bindings supplied."),
     mkWorld "app.db" (Some [alice]) [logger; auditor]
       [EHook 1 "before_query"
              [AText "DELETE FROM users WHERE id = ?"; ATuple []] [];
        EExec "DELETE FROM users WHERE id = ?" [];
        ERollback]).
Proof.
  exact (proj1
    (@transaction_commits_or_rolls_back (list row) binding_engine _
       (@DBBase.execute _ binding_engine "DELETE FROM users WHERE id = ?" [])
       world0
       (snd (@DBBase.execute _ binding_engine
               "DELETE FROM users WHERE id = ?" [] world0))
       [alice]
       (fst (@DBBase.execute _ binding_engine
               "DELETE FROM users WHERE id = ?" [] world0))
       eq_refl eq_refl)).
Defined.

(** ** Model.create, refused *)

Section ModelCreateFailed.
Context {conn : Type} {engine : SqlEngine conn}.

(** X2. For fields not named [self] or [hook_name]: when the engine
    refuses the INSERT, [create] raises
    [DatabaseConnectionError] with the engine's message after
    [Failed to execute query: ], the transaction is rolled back and not
    committed, and [after_save] is not called: the last effects are the
    [before_save] calls, the statement and the rollback. *)
Theorem create_refused_rolls_back
        (cls : ModelClass) (kw : kwargs) (w : World conn) (c c' : conn)
        (msg : string) :
  first_collision ["self"; "hook_name"] kw = None ->
  connection w = Some c ->
  sql_execute c (Model.create_query cls kw) (values kw) = (inl msg, c') ->
  let w' := snd (Model.create cls kw w) in
  Model.create cls kw w
  = (inl (DatabaseConnectionError ("Failed to execute query: " ++ msg)),
     mkWorld (db_path w) (Some (sql_rollback c')) (plugins w)
       (trace w
          ++ hook_calls (plugins w) "before_save" [ADb] kw
          ++ statement_events (plugins w) (Model.create_query cls kw)
                              (values kw)
          ++ [ERollback]))
  /\ hook_count "after_save" (trace w') = hook_count "after_save" (trace w)
  /\ transactions (trace w') = (transactions (trace w) ++ [ERollback])%list.
Proof.
  intros Hfree Hc He w'.
  assert (Hrun : Model.create cls kw w
  = (inl (DatabaseConnectionError ("Failed to execute query: " ++ msg)),
     mkWorld (db_path w) (Some (sql_rollback c')) (plugins w)
       (trace w
          ++ hook_calls (plugins w) "before_save" [ADb] kw
          ++ statement_events (plugins w) (Model.create_query cls kw)
                              (values kw)
          ++ [ERollback]))).
  { unfold Model.create.
    rewrite (bind_ok _ _ _
               (call_hook_unpacking_ok "before_save" [ADb] kw w Hfree)).
    erewrite bind_raise;
      [| eapply transaction_execute_failed; [exact Hc | exact He]].
    cbn [db_path connection plugins trace]. now rewrite <- !app_assoc. }
  split; [exact Hrun |]. subst w'. rewrite Hrun. cbn [snd trace].
  split.
  - unfold statement_events.
    rewrite !hook_count_app, !hook_count_hook_calls. cbn. lia.
  - unfold transactions, statement_events, hook_calls.
    rewrite !filter_app.
    assert (Hh : forall h a k l,
               filter is_tx (map (fun p => EHook (plugin_id p) h a k) l) = []).
    { intros h a k l. induction l as [|p l IH]; [reflexivity | exact IH]. }
    rewrite !Hh. cbn. reflexivity.
Qed.

End ModelCreateFailed.

Lemma create_refused_rolls_back_witness :
  @Model.create _ binding_engine User [("what?", VInt 1)] world0
  = (inl (DatabaseConnectionError
            "Failed to execute query: Incorrect number of bindings supplied."),
     mkWorld "app.db" (Some [alice]) [logger; auditor]
       [EHook 0 "before_save" [ADb] [("what?", VInt 1)];
        EHook 1 "before_query"
              [AText "INSERT INTO users (what?) VALUES (?)";
               ATuple [VInt 1]] [];
        EExec "INSERT INTO users (what?) VALUES (?)" [VInt 1];
        ERollback]).
Proof.
  refine (proj1
    (@create_refused_rolls_back (list row) binding_engine User
       [("what?", VInt 1)] world0 [alice] [alice]
       "Incorrect number of bindings supplied." _ _ _)); reflexivity.
Defined.

(** ** Model.delete, and Model.update refused *)

Section ModelDelete.
Context {conn : Type} {engine : SqlEngine conn}.

Lemma transactions_hook_calls (ps : list Plugin) (hook_name : string)
      (args : list hook_arg) (kw : kwargs) :
  transactions (hook_calls ps hook_name args kw) = [].
Proof.
  unfold hook_calls, transactions.
  induction (filter (fun p => has_hook p hook_name) ps) as [|p l IH];
    [reflexivity | exact IH].
Qed.

Lemma transactions_app (t1 t2 : list event) :
  transactions (t1 ++ t2) = (transactions t1 ++ transactions t2)%list.
Proof. apply filter_app. Qed.

Lemma transactions_statement_events (ps : list Plugin) (query : string)
      (params : list value) :
  transactions (statement_events ps query params) = [].
Proof.
  unfold statement_events.
  now rewrite transactions_app, transactions_hook_calls.
Qed.

(** X3. On a live connection whose engine accepts both statements,
    [delete] reads the row with the SELECT of [get], calls [before_delete]
    with it, sends [DELETE FROM t WHERE k = ? AND ...] with the values of
    the conditions, commits, and calls [after_delete] with the row read
    before the deletion: two statements reach the engine, and the row is
    not read again. *)
Theorem delete_statement_and_hooks
        (cls : ModelClass) (kw : kwargs) (w : World conn)
        (c0 c1 c2 : conn) (rows1 rows2 : list row) :
  connection w = Some c0 ->
  sql_execute c0 (Model.get_query cls kw) (values kw) = (inr rows1, c1) ->
  sql_execute c1 (Model.delete_query cls kw) (values kw) = (inr rows2, c2) ->
  let statement :=
    "DELETE FROM " ++ model_table cls ++ " WHERE "
      ++ join " AND " (map (fun k => k ++ " = ?") (keys kw)) in
  let instance := DBBase.fetchone rows1 in
  let w' := snd (Model.delete cls kw w) in
  Model.delete cls kw w
  = (inr tt,
     mkWorld (db_path w) (Some (sql_commit c2)) (plugins w)
       (trace w
          ++ statement_events (plugins w) (Model.get_query cls kw) (values kw)
          ++ hook_calls (plugins w) "before_delete" [ARow instance; ADb] []
          ++ statement_events (plugins w) statement (values kw)
          ++ [ECommit]
          ++ hook_calls (plugins w) "after_delete" [ARow instance; ADb] []))
  /\ executed (trace w')
     = (executed (trace w)
        ++ [EExec (Model.get_query cls kw) (values kw);
            EExec statement (values kw)])%list.
Proof.
  intros Hc H1 H2 statement instance w'.
  assert (Hrun : Model.delete cls kw w
  = (inr tt,
     mkWorld (db_path w) (Some (sql_commit c2)) (plugins w)
       (trace w
          ++ statement_events (plugins w) (Model.get_query cls kw) (values kw)
          ++ hook_calls (plugins w) "before_delete" [ARow instance; ADb] []
          ++ statement_events (plugins w) statement (values kw)
          ++ [ECommit]
          ++ hook_calls (plugins w) "after_delete" [ARow instance; ADb] []))).
  { unfold Model.delete.
    rewrite (bind_ok _ _ _ (get_ok _ _ _ Hc H1)).
    erewrite bind_ok; [| apply call_hook_run].
    cbn [db_path connection plugins trace].
    erewrite bind_ok;
      [| eapply transaction_execute_ok; [reflexivity | exact H2]].
    rewrite call_hook_run. cbn [db_path connection plugins trace].
    now rewrite <- !app_assoc. }
  split; [exact Hrun |].
  subst w'. rewrite Hrun. cbn [snd trace].
  rewrite !executed_app, !executed_statement_events, !executed_hook_calls.
  reflexivity.
Qed.



End ModelDelete.

Lemma delete_statement_and_hooks_witness :
  Model.delete User [("id", VInt 1)] world0
  = (inr tt,
     mkWorld "app.db" (Some [alice]) [logger; auditor]
       [EHook 1 "before_query"
              [AText "SELECT * FROM users WHERE id = ? LIMIT 1";
               ATuple [VInt 1]] [];
        EExec "SELECT * FROM users WHERE id = ? LIMIT 1" [VInt 1];
        EHook 1 "before_query"
              [AText "DELETE FROM users WHERE id = ?"; ATuple [VInt 1]] [];
        EExec "DELETE FROM users WHERE id = ?" [VInt 1];
        ECommit]).
Proof.
  refine (proj1
    (@delete_statement_and_hooks (list row) memory_engine User
       [("id", VInt 1)] world0 [alice] [alice] [alice] [alice] [alice]
       _ _ _)); reflexivity.
Defined.


(** ** Placeholders and parameters *)

Lemma placeholders_append (a b : string) :
  placeholders (a ++ b) = placeholders a + placeholders b.
Proof. apply count_char_append. Qed.

Lemma placeholders_join_plain (sep : string) (parts : list string) :
  plain sep -> Forall plain parts -> placeholders (join sep parts) = 0.
Proof.
  intros Hsep Hparts. induction Hparts as [|p l Hp Hl IH]; [reflexivity |].
  destruct l as [|y l].
  - exact Hp.
  - rewrite join_cons2, !placeholders_append, IH.
    unfold plain in *. rewrite Hp, Hsep. reflexivity.
Qed.

Lemma placeholders_key_conditions (ks : list string) :
  Forall plain ks ->
  placeholders (join " AND " (map (fun k => k ++ " = ?") ks)) = length ks.
Proof.
  intros H. rewrite placeholders_join.
  - apply length_map.
  - reflexivity.
  - apply Forall_map. eapply Forall_impl; [| exact H].
    intros k Hk. now rewrite placeholders_suffix.
Qed.

Lemma placeholders_key_assignments (ks : list string) :
  Forall plain ks ->
  placeholders (join ", " (map (fun k => k ++ " = ?") ks)) = length ks.
Proof.
  intros H. rewrite placeholders_join.
  - apply length_map.
  - reflexivity.
  - apply Forall_map. eapply Forall_impl; [| exact H].
    intros k Hk. now rewrite placeholders_suffix.
Qed.

Lemma placeholders_where_clause (qb : QueryBuilder) :
  Forall (fun kv => plain (fst kv)) (filters qb) ->
  placeholders (where_clause qb) = length (filters qb).
Proof.
  intros H. unfold where_clause.
  destruct (filters qb) as [|kv l] eqn:E; [reflexivity |].
  cbn [truthy_list]. rewrite placeholders_append.
  now rewrite (placeholders_conditions " = ?" eq_refl H).
Qed.

Lemma placeholders_where_like_clause (qb : QueryBuilder) :
  Forall (fun kv => plain (fst kv)) (filter_likes qb) ->
  placeholders (where_like_clause qb) = length (filter_likes qb).
Proof.
  intros H. unfold where_like_clause.
  destruct (filter_likes qb) as [|kv l] eqn:E; [reflexivity |].
  cbn [truthy_list]. rewrite placeholders_append.
  now rewrite (placeholders_conditions " LIKE ?" eq_refl H).
Qed.

(** X5. Whatever filters a builder holds (none, of one kind, of both), the
    statement that [build_select] returns has exactly as many [?]
    placeholders as the returned tuple has parameters, as long as the
    table, field and ordering names hold no question mark. *)
Theorem select_placeholders_match_params (qb : QueryBuilder) :
  plain_names qb ->
  likes_are_str qb ->
  exists (q : string) (ps : list value),
    build_select qb = inr (q, ps)
    /\ placeholders q = length ps
    /\ length ps = length (filters qb) + length (filter_likes qb).
Proof.
  intros (Ht & Hf & Hl & Ho) Hs.
  exists (select_text qb),
    (values (filters qb) ++ map like_pattern (values (filter_likes qb)))%list.
  split; [exact (build_select_of_str Hs) |].
  assert (Hlen : length (values (filters qb)
                         ++ map like_pattern (values (filter_likes qb)))
                 = length (filters qb) + length (filter_likes qb)).
  { unfold values. now rewrite length_app, !length_map. }
  split; [| exact Hlen]. rewrite Hlen, select_text_clauses.
  rewrite !placeholders_append, placeholders_where_clause,
    placeholders_where_like_clause by assumption.
  unfold plain in Ht, Ho. rewrite Ht, Ho. cbn. lia.
Qed.

Lemma select_placeholders_match_params_witness :
  exists (q : string) (ps : list value),
    build_select (mkQB "posts" [] [("title", VStr "rocq")] (Some "id ASC"))
    = inr (q, ps)
    /\ placeholders q = length ps
    /\ length ps = 0 + 1.
Proof.
  apply (@select_placeholders_match_params
           (mkQB "posts" [] [("title", VStr "rocq")] (Some "id ASC"))).
  - repeat split; repeat constructor.
  - repeat constructor.
Defined.

(** X6. The INSERT, SELECT, UPDATE and DELETE statements of a record type
    have as many [?] placeholders as the parameter tuple sent with them has
    values, as long as the table and field names hold no question mark. *)
Theorem crud_placeholders_match_params
        (cls : ModelClass) (kw updates : kwargs) :
  plain (model_table cls) ->
  Forall plain (keys kw) ->
  Forall plain (keys updates) ->
  placeholders (Model.create_query cls kw) = length (values kw)
  /\ placeholders (Model.get_query cls kw) = length (values kw)
  /\ placeholders (Model.delete_query cls kw) = length (values kw)
  /\ placeholders (Model.update_query cls kw updates)
     = length (values updates ++ values kw).
Proof.
  intros Ht Hk Hu. unfold plain in Ht.
  assert (Hlen : forall l : kwargs, length (values l) = length (keys l)).
  { intros l. unfold values, keys. now rewrite !length_map. }
  repeat split.
  - unfold Model.create_query. rewrite !placeholders_append, Ht.
    rewrite (placeholders_join_plain (sep := ", ") eq_refl Hk).
    rewrite (@placeholders_join ", " (map (fun _ => "?") kw) eq_refl).
    + rewrite length_map. unfold values. rewrite length_map. cbn. lia.
    + apply Forall_map. apply Forall_forall. reflexivity.
  - unfold Model.get_query. rewrite !placeholders_append, Ht.
    rewrite (placeholders_key_conditions Hk), Hlen. cbn. lia.
  - unfold Model.delete_query. rewrite !placeholders_append, Ht.
    rewrite (placeholders_key_conditions Hk), Hlen. cbn. lia.
  - unfold Model.update_query. rewrite !placeholders_append, Ht.
    rewrite (placeholders_key_conditions Hk),
      (placeholders_key_assignments Hu), length_app, !Hlen. cbn. lia.
Qed.

Lemma crud_placeholders_match_params_witness :
  placeholders (Model.update_query User [("id", VInt 1)]
                                   [("name", VStr "Bob"); ("age", VInt 3)])
  = 3.
Proof.
  refine (proj2 (proj2 (proj2
    (@crud_placeholders_match_params User [("id", VInt 1)]
       [("name", VStr "Bob"); ("age", VInt 3)] _ _ _)))).
  - reflexivity.
  - repeat constructor.
  - repeat constructor.
Defined.

(** ** Values stay out of the statement text *)

Lemma truthy_list_map {A B : Type} (f : A -> B) (l : list A) :
  truthy_list (map f l) = truthy_list l.
Proof. now destruct l. Qed.

Lemma conditions_of_keys (op : string) (l : list (string * value)) :
  map (fun kv => fst kv ++ op) l = map (fun k => k ++ op) (keys l).
Proof. unfold keys. now rewrite map_map. Qed.

(** X7. The text of every generated statement is a function of the table
    and field names: two keyword mappings (or two builders) with the same
    names in the same order give the same text, whatever their values.
    Values reach the engine through the parameter tuple only. *)
Theorem statement_text_ignores_values
        (cls : ModelClass) (kw kw' updates updates' : kwargs)
        (qb qb' : QueryBuilder) :
  keys kw = keys kw' ->
  keys updates = keys updates' ->
  table_name qb = table_name qb' ->
  keys (filters qb) = keys (filters qb') ->
  keys (filter_likes qb) = keys (filter_likes qb') ->
  ordering qb = ordering qb' ->
  Model.get_query cls kw = Model.get_query cls kw'
  /\ Model.delete_query cls kw = Model.delete_query cls kw'
  /\ Model.update_query cls kw updates = Model.update_query cls kw' updates'
  /\ Model.create_query cls kw = Model.create_query cls kw'
  /\ select_text qb = select_text qb'.
Proof.
  intros Hk Hu Ht Hf Hl Ho.
  unfold Model.get_query, Model.delete_query, Model.update_query,
    Model.create_query.
  rewrite Hk, Hu. repeat split.
  - f_equal. f_equal. f_equal. f_equal. f_equal. f_equal.
    rewrite <- (map_map fst (fun _ => "?") kw),
      <- (map_map fst (fun _ => "?") kw').
    fold (keys kw) (keys kw'). now rewrite Hk.
  - rewrite !select_text_clauses.
    unfold where_clause, where_like_clause, order_clause.
    rewrite !conditions_of_keys, Ht, Ho.
    rewrite <- (truthy_list_map fst (filters qb)),
      <- (truthy_list_map fst (filters qb')),
      <- (truthy_list_map fst (filter_likes qb)),
      <- (truthy_list_map fst (filter_likes qb')).
    fold (keys (filters qb)) (keys (filters qb')) (keys (filter_likes qb))
      (keys (filter_likes qb')).
    now rewrite Hf, Hl.
Qed.

Lemma statement_text_ignores_values_witness :
  Model.get_query User [("name", VStr "x' OR '1'='1")]
  = Model.get_query User [("name", VStr "Alice")]
  /\ select_text (mkQB "users" [("name", VStr "x' OR '1'='1")] [] None)
     = select_text (mkQB "users" [("name", VInt 0)] [] None).
Proof.
  pose proof (@statement_text_ignores_values User
                [("name", VStr "x' OR '1'='1")] [("name", VStr "Alice")]
                [] []
                (mkQB "users" [("name", VStr "x' OR '1'='1")] [] None)
                (mkQB "users" [("name", VInt 0)] [] None)
                eq_refl eq_refl eq_refl eq_refl eq_refl eq_refl)
    as (Hg & _ & _ & _ & Hs).
  split; [exact Hg | exact Hs].
Defined.

(** ** QuerySet: fluent calls, all and get *)

Example filter_like_then_filter :
  build_select
    (query_builder
       (QuerySet.order_by "id" true
          (QuerySet.filter_like [("name", VStr "li")] (QuerySet.objects User))))
  = inr ("SELECT * FROM users WHERE name LIKE ? ORDER BY id DESC",
         [VStr "%li%"]).
Proof. reflexivity. Qed.

(** X8. [filter_like] appends its pairs to the LIKE filters in call order
    and leaves the equality filters alone; a call without keywords changes
    nothing; and calls of different kinds ([filter], [filter_like],
    [order_by]) commute: only the order among calls of one kind matters. *)
Theorem fluent_calls_commute (kw kl : kwargs) (f : string) (d : bool)
        (qs : QuerySet) :
  filter_likes (query_builder (QuerySet.filter_like kl qs))
  = (filter_likes (query_builder qs) ++ kl)%list
  /\ filters (query_builder (QuerySet.filter_like kl qs))
     = filters (query_builder qs)
  /\ QuerySet.filter [] qs = qs
  /\ QuerySet.filter_like [] qs = qs
  /\ QuerySet.filter kw (QuerySet.filter_like kl qs)
     = QuerySet.filter_like kl (QuerySet.filter kw qs)
  /\ QuerySet.filter kw (QuerySet.order_by f d qs)
     = QuerySet.order_by f d (QuerySet.filter kw qs)
  /\ QuerySet.filter_like kl (QuerySet.order_by f d qs)
     = QuerySet.order_by f d (QuerySet.filter_like kl qs).
Proof.
  unfold QuerySet.filter, QuerySet.filter_like, QuerySet.order_by, set_order.
  cbn [query_builder qs_model].
  rewrite !add_filter_spec, !add_filter_like_spec.
  cbn [table_name filters filter_likes ordering].
  rewrite !app_nil_r.
  repeat split; try reflexivity; destruct qs as [m [t fs ls o]]; reflexivity.
Qed.

Section QuerySetAll.
Context {conn : Type} {engine : SqlEngine conn}.

Lemma wrap_likes_raises (l : list (string * value)) (v : value) :
  first_non_str (values l) = Some v ->
  wrap_likes l = inl (TypeError (ConcatNonStr (type_name v))).
Proof.
  induction l as [|[k x] l IH]; intros H; [discriminate |].
  cbn [values map snd first_non_str] in H. cbn [wrap_likes].
  destruct x; cbn [is_str wrap_like] in *;
    try (injection H as <-; reflexivity).
  fold (values l) in H. now rewrite (IH H).
Qed.

(** X10. When some LIKE value of the query set is not a string, [all] and
    [get] raise the [TypeError] of the first such value (a [+] between
    [str] and its type) while compiling: no hook is called, nothing reaches
    the engine and the world is as before, whether a connection is
    established or not. [get] has appended its filter all the same. *)
Theorem like_type_error_precedes_database
        (kw : kwargs) (qs : QuerySet) (w : World conn) (v : value) :
  first_non_str (values (filter_likes (query_builder qs))) = Some v ->
  QuerySet.all qs w = (inl (TypeError (ConcatNonStr (type_name v))), w)
  /\ snd (QuerySet.get kw qs) w
     = (inl (TypeError (ConcatNonStr (type_name v))), w)
  /\ filters (query_builder (fst (QuerySet.get (conn := conn) kw qs)))
     = (filters (query_builder qs) ++ kw)%list.
Proof.
  intros Hv. split; [| split].
  - unfold QuerySet.all, bind, lift, build_select.
    now rewrite (wrap_likes_raises _ Hv).
  - unfold QuerySet.get, QuerySet.filter, bind, lift, build_select.
    cbn [snd query_builder]. rewrite add_filter_spec.
    cbn [filter_likes]. now rewrite (wrap_likes_raises _ Hv).
  - unfold QuerySet.get, QuerySet.filter. cbn [fst query_builder].
    now rewrite add_filter_spec.
Qed.

End QuerySetAll.

Lemma like_type_error_precedes_database_witness :
  let qs :=
    QuerySet.filter_like [("name", VStr "li"); ("age", VInt 5)]
                         (QuerySet.objects User) in
  QuerySet.all qs world0 = (inl (TypeError (ConcatNonStr "int")), world0)
  /\ snd (QuerySet.get [("id", VInt 1)] qs) offline
     = (inl (TypeError (ConcatNonStr "int")), offline).
Proof.
  cbv zeta. split.
  - exact (proj1 (@like_type_error_precedes_database (list row)
                    memory_engine []
                    (QuerySet.filter_like [("name", VStr "li"); ("age", VInt 5)]
                                          (QuerySet.objects User))
                    world0 (VInt 5) eq_refl)).
  - exact (proj1 (proj2 (@like_type_error_precedes_database (list row)
                    memory_engine [("id", VInt 1)]
                    (QuerySet.filter_like [("name", VStr "li"); ("age", VInt 5)]
                                          (QuerySet.objects User))
                    offline (VInt 5) eq_refl))).
Defined.

(** ** Connection life cycle *)

Section Connection.
Context {conn : Type} {engine : SqlEngine conn}.

Lemma close_live (w : World conn) (c : conn) :
  connection w = Some c ->
  DBBase.close w
  = match sql_close c with
    | None =>
        (inr tt,
         mkWorld (db_path w) None (plugins w) (trace w ++ [EClose]))
    | Some msg =>
        (inl (SqliteError msg),
         mkWorld (db_path w) (Some c) (plugins w) (trace w ++ [EClose]))
    end.
Proof.
  intros Hc.
  unfold DBBase.close, bind, get_connection, emit, set_connection, raise.
  rewrite Hc. cbn [connection db_path plugins trace]. rewrite Hc.
  destruct (sql_close c); reflexivity.
Qed.

(** X11. On a live connection [close] calls the engine's close and nothing
    else (no commit, no rollback, no hook) and then drops the connection;
    an error of the engine is raised as it is, unwrapped, and leaves the
    connection in place. Without a connection [close] does nothing: closing
    twice calls the engine once, and [execute] after a successful [close]
    raises the connection-not-established error without calling a hook or
    reaching an engine. *)
Theorem close_drops_connection (query : string) (params : list value)
        (w : World conn) :
  match connection w with
  | None => DBBase.close w = (inr tt, w)
  | Some c =>
      match sql_close c with
      | Some msg =>
          DBBase.close w
          = (inl (SqliteError msg),
             mkWorld (db_path w) (Some c) (plugins w) (trace w ++ [EClose]))
      | None =>
          let closed :=
            mkWorld (db_path w) None (plugins w) (trace w ++ [EClose]) in
          DBBase.close w = (inr tt, closed)
          /\ (DBBase.close ;;; DBBase.close) w = (inr tt, closed)
          /\ (DBBase.close ;;; DBBase.execute query params) w
             = (inl not_established, closed)
      end
  end.
Proof.
  destruct (connection w) as [c|] eqn:Hc.
  - pose proof (close_live w Hc) as H.
    destruct (sql_close c) as [msg|]; [exact H |].
    cbv zeta. split; [exact H | split].
    + now rewrite (bind_ok _ _ _ H).
    + rewrite (bind_ok _ _ _ H). now apply execute_offline.
  - unfold DBBase.close, bind, get_connection, ret. now rewrite Hc.
Qed.

(** X12. A failed [connect] raises [DatabaseConnectionError] with the
    engine's message after [Failed to connect to the database: ] and
    changes nothing: a connection established before is still there. A
    successful [connect] installs the new connection, also over an old one
    (which is not closed), and what follows runs on it: a statement, or
    the [close] that hands it back to the engine. *)
Theorem connect_outcomes (w : World conn) :
  match sql_connect (db_path w) with
  | inl msg =>
      DBBase.connect w
      = (inl (DatabaseConnectionError
                ("Failed to connect to the database: " ++ msg)), w)
  | inr c =>
      DBBase.connect w
      = (inr tt, mkWorld (db_path w) (Some c) (plugins w) (trace w))
      /\ (forall (query : string) (params : list value),
            (DBBase.connect ;;; DBBase.execute query params) w
            = DBBase.execute query params
                (mkWorld (db_path w) (Some c) (plugins w) (trace w)))
      /\ (DBBase.connect ;;; DBBase.close) w
         = match sql_close c with
           | None =>
               (inr tt,
                mkWorld (db_path w) None (plugins w) (trace w ++ [EClose]))
           | Some msg =>
               (inl (SqliteError msg),
                mkWorld (db_path w) (Some c) (plugins w)
                        (trace w ++ [EClose]))
           end
  end.
Proof.
  destruct (sql_connect (db_path w)) as [msg|c] eqn:E.
  - unfold DBBase.connect. now rewrite E.
  - assert (H : DBBase.connect w
                = (inr tt, mkWorld (db_path w) (Some c) (plugins w) (trace w))).
    { unfold DBBase.connect. now rewrite E. }
    split; [exact H | split].
    + intros query params. now rewrite (bind_ok _ _ _ H).
    + rewrite (bind_ok _ _ _ H).
      exact (close_live (mkWorld (db_path w) (Some c) (plugins w) (trace w))
                        eq_refl).
Qed.

(** X13. A plugin registered with [load_plugin] is called after the ones
    registered before it, once per registration; a plugin without a
    callable attribute of the hook's name is passed over without an
    error. *)
Theorem loaded_plugin_is_called_last
        (p : Plugin) (hook_name : string) (args : list hook_arg) (kw : kwargs)
        (w : World conn) :
  (PluginManager.load_plugin p ;;; PluginManager.call_hook hook_name args kw) w
  = (inr tt,
     mkWorld (db_path w) (connection w) (plugins w ++ [p])
       (trace w
          ++ hook_calls (plugins w) hook_name args kw
          ++ (if has_hook p hook_name
              then [EHook (plugin_id p) hook_name args kw] else [])))
  /\ hook_count hook_name
       (trace (snd ((PluginManager.load_plugin p ;;;
                     PluginManager.call_hook hook_name args kw) w)))
     = hook_count hook_name (trace w) + listeners (plugins w) hook_name
       + (if has_hook p hook_name then 1 else 0).
Proof.
  assert (H : (PluginManager.load_plugin p ;;;
               PluginManager.call_hook hook_name args kw) w
  = (inr tt,
     mkWorld (db_path w) (connection w) (plugins w ++ [p])
       (trace w
          ++ hook_calls (plugins w) hook_name args kw
          ++ (if has_hook p hook_name
              then [EHook (plugin_id p) hook_name args kw] else [])))).
  { unfold bind, PluginManager.load_plugin, PluginManager.call_hook, emit.
    cbn [plugins trace db_path connection].
    unfold hook_calls. rewrite filter_app, map_app. cbn [filter].
    destruct (has_hook p hook_name); reflexivity. }
  split; [exact H |]. rewrite H. cbn [snd trace].
  rewrite !hook_count_app, hook_count_hook_calls, String.eqb_refl.
  destruct (has_hook p hook_name); unfold hook_count; cbn;
    rewrite ?String.eqb_refl; cbn; lia.
Qed.

Lemma execute_script_calls_no_hook_frame (script : string) (w : World conn)
      (c : conn) :
  connection w = Some c ->
  DBBase.execute_script script w
  = (match fst (sql_executescript c script) with
     | None => inr tt
     | Some msg =>
         inl (DatabaseConnectionError ("Failed to execute script: " ++ msg))
     end,
     mkWorld (db_path w) (Some (snd (sql_executescript c script))) (plugins w)
             (trace w ++ [EScript script])).
Proof.
  intros Hc.
  unfold DBBase.execute_script, bind, get_connection, emit, set_connection,
    raise.
  rewrite Hc. destruct (sql_executescript c script) as [[msg|] c'];
    reflexivity.
Qed.

(** X14. [execute_script] on a live connection makes one call, the
    engine's [executescript] with the script: the library calls no
    [before_query] hook (or any other), and calls neither [commit] nor
    [rollback] around it; what the engine does to a pending transaction
    inside that call is the engine's. An engine error comes out as
    [DatabaseConnectionError] with [Failed to execute script: ]. *)
Theorem execute_script_calls_no_hook (script : string) (w : World conn)
        (c : conn) :
  connection w = Some c ->
  let w' := snd (DBBase.execute_script script w) in
  fst (DBBase.execute_script script w)
  = match fst (sql_executescript c script) with
    | None => inr tt
    | Some msg =>
        inl (DatabaseConnectionError ("Failed to execute script: " ++ msg))
    end
  /\ trace w' = (trace w ++ [EScript script])%list
  /\ connection w' = Some (snd (sql_executescript c script))
  /\ (forall hook_name : string,
        hook_count hook_name (trace w') = hook_count hook_name (trace w))
  /\ transactions (trace w') = transactions (trace w).
Proof.
  intros Hc w'. subst w'.
  rewrite (execute_script_calls_no_hook_frame script w Hc).
  cbn [fst snd trace connection].
  repeat split.
  - intros hook_name. rewrite hook_count_app. cbn. lia.
  - rewrite transactions_app. cbn. now rewrite app_nil_r.
Qed.

End Connection.

Lemma execute_script_calls_no_hook_witness :
  fst (DBBase.execute_script "DELETE FROM users; VACUUM;" world0) = inr tt
  /\ trace (snd (DBBase.execute_script "DELETE FROM users; VACUUM;" world0))
     = [EScript "DELETE FROM users; VACUUM;"].
Proof.
  pose proof (@execute_script_calls_no_hook (list row) memory_engine
                "DELETE FROM users; VACUUM;" world0 [alice] eq_refl)
    as (Hr & Ht & _).
  split; [exact Hr | exact Ht].
Defined.

(** ** What operations leave alone *)

Section FrameLemmas.
Context {conn : Type} {engine : SqlEngine conn}.

Lemma leaves_bind {A B : Type} (m : M conn A) (k : A -> M conn B) :
  leaves_transactions m ->
  (forall a, leaves_transactions (k a)) ->
  leaves_transactions (bind m k).
Proof.
  intros Hm Hk w w' r H. unfold bind in H.
  destruct (m w) as [[e|a] w1] eqn:E.
  - injection H as <- <-. exact (Hm _ _ _ E).
  - rewrite (Hk a _ _ _ H). exact (Hm _ _ _ E).
Qed.

Lemma leaves_ret {A : Type} (a : A) : leaves_transactions (ret (conn := conn) a).
Proof. intros w w' r H. now injection H as <- <-. Qed.

Lemma leaves_lift {A : Type} (r : result A) :
  leaves_transactions (lift (conn := conn) r).
Proof. intros w w' r' H. now injection H as <- <-. Qed.

Lemma leaves_execute (query : string) (params : list value) :
  leaves_transactions (DBBase.execute query params).
Proof.
  intros w w' r H.
  destruct (connection w) as [c|] eqn:Hc.
  - destruct (sql_execute c query params) as [[msg|rows] c'] eqn:He.
    + rewrite (execute_failed _ _ _ Hc He) in H. injection H as <- <-.
      cbn [trace].
      now rewrite transactions_app, transactions_statement_events, app_nil_r.
    + rewrite (execute_ok _ _ _ Hc He) in H. injection H as <- <-.
      cbn [trace].
      now rewrite transactions_app, transactions_statement_events, app_nil_r.
  - rewrite (execute_offline _ _ _ Hc) in H. now injection H as <- <-.
Qed.

(** X15. The reading operations ([fetch_one], [fetch_all], [Model.all],
    [Model.get], [QuerySet.all], [QuerySet.get]) never commit and never
    roll back, whatever their outcome: they run outside any transaction
    scope. *)
Theorem reads_never_commit (op : read_operation) :
  leaves_transactions (run_read op).
Proof.
  destruct op; cbn [run_read]; unfold void, Model.all, Model.get,
    QuerySet.all, QuerySet.get, DBBase.fetch_one, DBBase.fetch_all;
    cbn [snd];
    repeat (first [ apply leaves_execute | apply leaves_ret
                  | apply leaves_lift | apply leaves_bind; [| intros ?] ]).
Qed.

Lemma keeps_bind {A B : Type} (m : M conn A) (k : A -> M conn B) :
  keeps_world m -> (forall a, keeps_world (k a)) -> keeps_world (bind m k).
Proof.
  intros Hm Hk w w' r H. unfold bind in H.
  destruct (m w) as [[e|a] w1] eqn:E.
  - injection H as <- <-. exact (Hm _ _ _ E).
  - destruct (Hm _ _ _ E) as (Hp & Hs & Hc & evs & Ht).
    destruct (Hk a _ _ _ H) as (Hp' & Hs' & Hc' & evs' & Ht').
    repeat split; try congruence; try tauto.
    exists (evs ++ evs')%list. now rewrite Ht', Ht, app_assoc.
Qed.

Lemma keeps_same {A : Type} (m : M conn A) :
  (forall w, snd (m w) = w) -> keeps_world m.
Proof.
  intros Hm w w' r H. pose proof (Hm w) as Hw. rewrite H in Hw.
  cbn in Hw. subst w'. repeat split; try tauto.
  exists []. now rewrite app_nil_r.
Qed.

Lemma keeps_ret {A : Type} (a : A) : keeps_world (ret (conn := conn) a).
Proof. now apply keeps_same. Qed.

Lemma keeps_call_hook (hook_name : string) (args : list hook_arg)
      (kw : kwargs) :
  keeps_world (PluginManager.call_hook (conn := conn) hook_name args kw).
Proof.
  intros w w' r H. rewrite call_hook_run in H. injection H as <- <-.
  cbn. repeat split; try tauto. eauto.
Qed.

Lemma keeps_lift {A : Type} (r : result A) :
  keeps_world (lift (conn := conn) r).
Proof. now apply keeps_same. Qed.

Lemma keeps_call_hook_unpacking (hook_name : string) (args : list hook_arg)
      (kw : kwargs) :
  keeps_world (PluginManager.call_hook_unpacking (conn := conn)
                 hook_name args kw).
Proof.
  unfold PluginManager.call_hook_unpacking.
  apply keeps_bind; [apply keeps_lift | intros ?; apply keeps_call_hook].
Qed.

Lemma keeps_call_hook_before_update (instance : option row)
      (updates : kwargs) :
  keeps_world (PluginManager.call_hook_before_update (conn := conn)
                 instance updates).
Proof.
  intros w w' r H. rewrite call_hook_before_update_run in H.
  injection H as <- <-. cbn. repeat split; try tauto. eauto.
Qed.

Lemma keeps_execute (query : string) (params : list value) :
  keeps_world (DBBase.execute query params).
Proof.
  intros w w' r H.
  destruct (connection w) as [c|] eqn:Hc.
  - destruct (sql_execute c query params) as [[msg|rows] c'] eqn:He.
    + rewrite (execute_failed _ _ _ Hc He) in H. injection H as <- <-.
      cbn. repeat split; try discriminate; eauto.
    + rewrite (execute_ok _ _ _ Hc He) in H. injection H as <- <-.
      cbn. repeat split; try discriminate; eauto.
  - rewrite (execute_offline _ _ _ Hc) in H. injection H as <- <-.
    repeat split; try tauto. exists []. now rewrite app_nil_r.
Qed.

Lemma keeps_execute_script (script : string) :
  keeps_world (DBBase.execute_script script).
Proof.
  intros w w' r H.
  destruct (connection w) as [c|] eqn:Hc.
  - rewrite (execute_script_calls_no_hook_frame script w Hc) in H.
    injection H as <- <-. cbn. repeat split; try discriminate; eauto.
  - unfold DBBase.execute_script, bind, get_connection in H.
    rewrite Hc in H. injection H as <- <-.
    repeat split; try tauto. exists []. now rewrite app_nil_r.
Qed.

Lemma keeps_transaction {A : Type} (body : M conn A) :
  keeps_world body -> keeps_world (DBBase.transaction body).
Proof.
  intros Hb w w' r H.
  destruct (connection w) as [c|] eqn:Hc.
  - destruct (body w) as [r1 w1] eqn:E.
    destruct (Hb _ _ _ E) as (Hp & Hs & Hl & evs & Ht).
    destruct (connection w1) as [c1|] eqn:Hc1;
      [| exfalso; destruct Hl as [Hl _]; specialize (Hl eq_refl); congruence].
    destruct r1 as [e|a].
    + rewrite (transaction_failed _ _ Hc E Hc1) in H. injection H as <- <-.
      cbn. repeat split; try discriminate; try congruence.
      exists (evs ++ [ERollback])%list. now rewrite Ht, app_assoc.
    + rewrite (transaction_ok _ _ Hc E Hc1) in H. injection H as <- <-.
      cbn. repeat split; try discriminate; try congruence.
      exists (evs ++ [ECommit])%list. now rewrite Ht, app_assoc.
  - rewrite (transaction_offline _ _ Hc) in H. injection H as <- <-.
    repeat split; try tauto. exists []. now rewrite app_nil_r.
Qed.

(** X16. Every operation (a transaction around a body that does so too)
    leaves [db_path] and the registered plugins as they are, keeps the
    connection established exactly when it was, and only appends to what
    happened before, whether it returns or raises: a failed statement does
    not drop the connection. *)
Theorem operations_keep_world (op : db_operation conn) :
  (forall body, op = OpTransaction body -> keeps_world body) ->
  keeps_world (run_operation op).
Proof.
  intros Hbody.
  assert (Hstmt : forall query params,
             keeps_world (DBBase.transaction
                            (DBBase.execute query params ;;; ret tt))).
  { intros query params. apply keeps_transaction.
    apply keeps_bind; [apply keeps_execute | intros ?; apply keeps_ret]. }
  assert (Hget : forall cls kw, keeps_world (Model.get cls kw)).
  { intros cls kw. unfold Model.get, DBBase.fetch_one.
    apply keeps_bind; [apply keeps_execute | intros ?; apply keeps_ret]. }
  assert (Hgetu : forall cls kw, keeps_world (Model.get_unpacking cls kw)).
  { intros cls kw. unfold Model.get_unpacking.
    apply keeps_bind; [apply keeps_lift | intros ?; apply Hget]. }
  destruct op; cbn [run_operation]; unfold void.
  - apply keeps_bind; [apply keeps_execute | intros ?; apply keeps_ret].
  - unfold DBBase.fetch_one.
    apply keeps_bind; [| intros ?; apply keeps_ret].
    apply keeps_bind; [apply keeps_execute | intros ?; apply keeps_ret].
  - unfold DBBase.fetch_all.
    apply keeps_bind; [| intros ?; apply keeps_ret].
    apply keeps_bind; [apply keeps_execute | intros ?; apply keeps_ret].
  - apply keeps_execute_script.
  - apply keeps_transaction. now apply Hbody.
  - apply Hstmt.
  - apply Hstmt.
  - unfold Model.create.
    apply keeps_bind; [apply keeps_call_hook_unpacking | intros ?].
    apply keeps_bind;
      [apply Hstmt | intros ?; apply keeps_call_hook_unpacking].
  - apply keeps_bind; [apply Hget | intros ?; apply keeps_ret].
  - unfold Model.all, DBBase.fetch_all.
    apply keeps_bind; [| intros ?; apply keeps_ret].
    apply keeps_bind; [apply keeps_execute | intros ?; apply keeps_ret].
  - unfold Model.update.
    apply keeps_bind; [apply Hgetu | intros ?].
    apply keeps_bind; [apply keeps_call_hook_before_update | intros ?].
    apply keeps_bind; [apply Hstmt | intros ?].
    apply keeps_bind; [apply Hgetu | intros ?; apply keeps_call_hook].
  - unfold Model.delete.
    apply keeps_bind; [apply Hget | intros ?].
    apply keeps_bind; [apply keeps_call_hook | intros ?].
    apply keeps_bind; [apply Hstmt | intros ?; apply keeps_call_hook].
Qed.

End FrameLemmas.

Lemma operations_keep_world_witness :
  let w' := snd (Model.update User [("id", VInt 1)] [("name", VStr "Bob")]
                              world0) in
  db_path w' = "app.db"
  /\ plugins w' = [logger; auditor]
  /\ (connection w' = None <-> connection world0 = None)
  /\ exists evs : list event, trace w' = (trace world0 ++ evs)%list.
Proof.
  cbv zeta.
  refine (@operations_keep_world (list row) memory_engine
            (OpUpdate User [("id", VInt 1)] [("name", VStr "Bob")])
            (fun body H => _)
            world0
            (snd (Model.update User [("id", VInt 1)] [("name", VStr "Bob")]
                               world0))
            (inr tt) _).
  - discriminate H.
  - vm_compute. reflexivity.
Defined.

(** ** Fields, record types and table statements *)

Example user_declaration :
  declare_model
    [("table_name", AttrValue (VStr "users"));
     ("id", AttrField (IntegerField true true false VNone));
     ("retries", AttrValue (VInt 3));
     ("name", AttrField (TextField false false true VNone));
     ("age", AttrField (IntegerField false true false (VInt 0)))]
  = User.
Proof. reflexivity. Qed.

(** X17. A default that is not [None] is written into the column
    definition as [str] gives it, after everything else: [0] and [False]
    are written although they are falsy, and a string is written without
    quotes. *)
Theorem default_literal_is_str (f : Field) (d : value) :
  d <> VNone ->
  get_definition (with_default d f)
  = get_definition (with_default VNone f) ++ " DEFAULT " ++ py_str d.
Proof.
  intros Hd. unfold get_definition, with_default.
  cbn [field_type primary_key nullable unique default is_not_None].
  destruct d; [congruence | | |]; reflexivity.
Qed.

Lemma default_literal_is_str_witness :
  get_definition (TextField false false false (VStr "anon"))
  = "TEXT NOT NULL DEFAULT anon"
  /\ get_definition (IntegerField false true false (VInt 0))
     = "INTEGER DEFAULT 0".
Proof.
  split.
  - refine (@default_literal_is_str
              (TextField false false false VNone) (VStr "anon") _).
    discriminate.
  - refine (@default_literal_is_str
              (IntegerField false true false VNone) (VInt 0) _).
    discriminate.
Defined.

(** X18. The statement builders accept an empty mapping: [create] without
    values builds [INSERT INTO t () VALUES ()], [delete] without conditions
    builds [DELETE FROM t WHERE ] (an empty condition, not a deletion of
    every row), [update] without updates builds [UPDATE t SET  WHERE ...],
    and a record type without fields builds [CREATE TABLE ... t ()]. *)
Theorem empty_mappings_statements (t : string) (fields : list (string * Field))
        (kw : kwargs) :
  let cls := mkModel t fields in
  Model.create_query cls [] = "INSERT INTO " ++ t ++ " () VALUES ()"
  /\ Model.delete_query cls [] = "DELETE FROM " ++ t ++ " WHERE "
  /\ Model.update_query cls kw []
     = "UPDATE " ++ t ++ " SET  WHERE "
       ++ join " AND " (map (fun k => k ++ " = ?") (keys kw))
  /\ Model.create_table_query (mkModel t [])
     = "CREATE TABLE IF NOT EXISTS " ++ t ++ " ()"
  /\ values ([] : kwargs) = [].
Proof.
  cbv zeta.
  unfold Model.create_query, Model.delete_query, Model.update_query,
    Model.create_table_query.
  cbn [model_table meta_fields keys map join String.concat append].
  repeat split.
Qed.

Lemma collect_fields_app (a b : list (string * attribute)) :
  collect_fields (a ++ b) = (collect_fields a ++ collect_fields b)%list.
Proof.
  induction a as [|[n [f|v]] a IH]; simpl; [reflexivity | now rewrite IH | exact IH].
Qed.

Lemma collect_fields_in (attrs : list (string * attribute)) (n : string)
      (f : Field) :
  In (n, f) (collect_fields attrs) <-> In (n, AttrField f) attrs.
Proof.
  induction attrs as [|[m [g|v]] attrs IH]; simpl.
  - tauto.
  - rewrite IH. split; intros [H|H]; auto; left; congruence.
  - rewrite IH. split; [auto | intros [H|H]; [discriminate | exact H]].
Qed.

(** X19. [ModelMeta] collects into [_meta] exactly the attributes of the
    class body that are fields, in the order of the body, and skips every
    other attribute; names that are distinct in the body stay distinct; and
    the columns of [create_table] are these fields, in this order. *)
Theorem meta_collects_declared_fields
        (attrs more : list (string * attribute)) :
  (forall (n : string) (f : Field),
      In (n, f) (meta_fields (declare_model attrs))
      <-> In (n, AttrField f) attrs)
  /\ collect_fields (attrs ++ more)
     = (collect_fields attrs ++ collect_fields more)%list
  /\ (NoDup (map fst attrs) ->
      NoDup (map fst (meta_fields (declare_model attrs))))
  /\ Model.create_table_query (declare_model attrs)
     = "CREATE TABLE IF NOT EXISTS " ++ model_table (declare_model attrs)
       ++ " (" ++ join ", " (map column (collect_fields attrs)) ++ ")".
Proof.
  split; [| split; [| split]].
  - intros n f. apply collect_fields_in.
  - apply collect_fields_app.
  - cbn [declare_model meta_fields].
    induction attrs as [|[m [g|v]] attrs IH]; simpl; intros Hnd.
    + constructor.
    + inversion Hnd as [|x l Hnot Hrest]; subst. constructor; [| auto].
      intros Hin. apply Hnot. apply in_map_iff in Hin.
      destruct Hin as ([m' f'] & Hm & Hin). simpl in Hm. subst m'.
      apply collect_fields_in in Hin.
      apply in_map_iff. now exists (m, AttrField f').
    + inversion Hnd; subst. auto.
  - reflexivity.
Qed.

(** X20. A record type whose body sets no [table_name] is not refused: it
    has the [None] of [Model], and its statements name a table [None]. *)
Theorem undeclared_table_is_None
        (attrs : list (string * attribute)) (kw : kwargs) :
  lookup_attr "table_name" attrs = None ->
  let cls := declare_model attrs in
  model_table cls = "None"
  /\ Model.get_query cls kw
     = "SELECT * FROM None WHERE "
       ++ join " AND " (map (fun k => k ++ " = ?") (keys kw)) ++ " LIMIT 1"
  /\ Model.create_table_query cls
     = "CREATE TABLE IF NOT EXISTS None ("
       ++ join ", " (map column (collect_fields attrs)) ++ ")"
  /\ select_text (query_builder (QuerySet.objects cls)) = "SELECT * FROM None".
Proof.
  intros Hl cls. subst cls.
  unfold Model.get_query, Model.create_table_query, QuerySet.objects,
    declare_model.
  rewrite Hl. cbn [model_table meta_fields py_str].
  repeat split; reflexivity.
Qed.

Lemma undeclared_table_is_None_witness :
  Model.create_table_query
    (declare_model [("id", AttrField (IntegerField true true false VNone))])
  = "CREATE TABLE IF NOT EXISTS None (id INTEGER PRIMARY KEY)".
Proof.
  exact (proj1 (proj2 (proj2
    (@undeclared_table_is_None
       [("id", AttrField (IntegerField true true false VNone))] []
       eq_refl)))).
Defined.

Section TableStatements.
Context {conn : Type} {engine : SqlEngine conn}.

Lemma transaction_execute_outcome (query : string) (params : list value)
      (w : World conn) (c : conn) :
  connection w = Some c ->
  DBBase.transaction (DBBase.execute query params ;;; ret tt) w
  = match sql_execute c query params with
    | (inr _, c') =>
        (inr tt,
         mkWorld (db_path w) (Some (sql_commit c')) (plugins w)
                 (trace w ++ statement_events (plugins w) query params
                    ++ [ECommit]))
    | (inl msg, c') =>
        (inl (DatabaseConnectionError ("Failed to execute query: " ++ msg)),
         mkWorld (db_path w) (Some (sql_rollback c')) (plugins w)
                 (trace w ++ statement_events (plugins w) query params
                    ++ [ERollback]))
    end.
Proof.
  intros Hc. destruct (sql_execute c query params) as [[msg|rows] c'] eqn:He.
  - exact (transaction_execute_failed _ _ _ Hc He).
  - exact (transaction_execute_ok _ _ _ Hc He).
Qed.

(** X21. On a live connection [create_table] and [drop_table] each send
    one statement without parameters, [CREATE TABLE IF NOT EXISTS t (...)]
    and [DROP TABLE IF EXISTS t], inside a transaction: committed when the
    engine accepts it, rolled back and raised as [DatabaseConnectionError]
    when it does not. No save, update or delete hook is called. *)
Theorem table_statements_are_transactions
        (cls : ModelClass) (w : World conn) (c : conn) :
  connection w = Some c ->
  let outcome (query : string) :=
    match sql_execute c query [] with
    | (inr _, c') =>
        (inr tt,
         mkWorld (db_path w) (Some (sql_commit c')) (plugins w)
                 (trace w ++ statement_events (plugins w) query []
                    ++ [ECommit]))
    | (inl msg, c') =>
        (inl (DatabaseConnectionError ("Failed to execute query: " ++ msg)),
         mkWorld (db_path w) (Some (sql_rollback c')) (plugins w)
                 (trace w ++ statement_events (plugins w) query []
                    ++ [ERollback]))
    end in
  Model.create_table cls w
  = outcome ("CREATE TABLE IF NOT EXISTS " ++ model_table cls ++ " ("
               ++ join ", " (map column (meta_fields cls)) ++ ")")
  /\ Model.drop_table cls w
     = outcome ("DROP TABLE IF EXISTS " ++ model_table cls).
Proof.
  intros Hc outcome. subst outcome. split.
  - exact (transaction_execute_outcome _ _ _ Hc).
  - exact (transaction_execute_outcome _ _ _ Hc).
Qed.

End TableStatements.

Lemma table_statements_are_transactions_witness :
  Model.create_table User world0
  = (inr tt,
     mkWorld "app.db" (Some [alice]) [logger; auditor]
       [EHook 1 "before_query"
          [AText "CREATE TABLE IF NOT EXISTS users (id INTEGER PRIMARY KEY, name TEXT UNIQUE NOT NULL, age INTEGER DEFAULT 0)";
           ATuple []] [];
        EExec "CREATE TABLE IF NOT EXISTS users (id INTEGER PRIMARY KEY, name TEXT UNIQUE NOT NULL, age INTEGER DEFAULT 0)" [];
        ECommit]).
Proof.
  exact (proj1 (@table_statements_are_transactions (list row) memory_engine
                  User world0 [alice] eq_refl)).
Defined.

Lemma reads_never_commit_witness :
  transactions
    (trace (snd (run_read (ReadModelGet User [("id", VInt 1)]) world0)))
  = transactions (trace world0).
Proof.
  exact (@reads_never_commit (list row) memory_engine
           (ReadModelGet User [("id", VInt 1)]) world0
           (snd (run_read (ReadModelGet User [("id", VInt 1)]) world0))
           (fst (run_read (ReadModelGet User [("id", VInt 1)]) world0))
           eq_refl).
Defined.
